(** * intel8080: the CPU core of [intel8080.cpp], embedded and checked

    The development follows [intel8080.hpp] / [intel8080.cpp]:

    - [std::uint8_t] and [std::uint16_t] values are integers of [Z]; every
      conversion back to the narrow type is written out ([wrap 8], [wrap 16],
      [wrap 32] for the [unsigned] intermediate results);
    - [union reg] is a pair of bytes.  The 16-bit member [full] overlays
      [pair[0]] and [pair[1]]; the host is taken to be little-endian (the
      build is for x86), so [full = pair[0] + 256 * pair[1]].  The same holds
      for the casts [*(std::uint16_t* )(ram + a)];
    - [ram] is a total map from indices to bytes.  An access through
      [(std::uint16_t* )(ram + a)] touches the indices [a] and [a + 1]
      (pointer arithmetic, no wrap at 0x10000);
    - the methods of [cpu] that return references ([A()], [BC()], [atHL()],
      ...) are lenses ([ref]); a method that takes [std::uint8_t&] or
      [std::uint16_t&] takes a lens;
    - a method that mutates the object is a function [cpu -> cpu]; one that
      also returns a value ([get8], [get16]) returns the pair;
    - the port output callback is recorded as a trace of (port, data). *)

From Stdlib Require Import ZArith List Bool Lia.
Import ListNotations.

Local Open Scope Z_scope.

Module intel8080.

(** ** Integer conversions *)

(** Conversion to an unsigned type of [w] bits. *)
Definition wrap (w n : Z) : Z := n mod 2 ^ w.

(** Contextual conversion of an integer to [bool]. *)
Definition to_bool (n : Z) : bool := negb (n =? 0).

(** Conversion of [bool] to an integer. *)
Definition of_bool (b : bool) : Z := if b then 1 else 0.

(** ** Free function templates of the header; [bitsT] is [8 * sizeof(T)] *)

Definition lowBitsOf (bitsT n numBits : Z) : Z :=
  wrap bitsT (n mod wrap 32 (Z.shiftl 1 numBits)).

Definition highBitsOf (bitsT n numBits : Z) : Z :=
  wrap bitsT (n / wrap 32 (Z.shiftl 1 (bitsT - numBits))).

Definition bitOf (bitsT n pos : Z) : Z :=
  wrap bitsT (Z.shiftr (lowBitsOf bitsT n (pos + 1)) pos).

Definition twosComp (bitsT n : Z) : Z := wrap bitsT (Z.lnot n + 1).

Definition swapBytes (n : Z) : Z :=
  wrap 16 (wrap 32 (highBitsOf 16 n 8 + lowBitsOf 16 n 8 * wrap 32 (Z.shiftl 1 8))).

(** [__builtin_parity]: 1 when the number of set bits is odd. *)
Fixpoint popcount_pos (p : positive) : nat :=
  match p with
  | xH => 1
  | xO q => popcount_pos q
  | xI q => S (popcount_pos q)
  end.

Definition popcount (n : Z) : nat :=
  match n with
  | Zpos p => popcount_pos p
  | _ => O
  end.

Definition builtin_parity (n : Z) : Z := of_bool (Nat.odd (popcount n)).

(** ** [enum flag] *)

Definition sign : Z := 7.
Definition zero : Z := 6.
Definition auxCarry : Z := 4.
Definition parity : Z := 2.
Definition carry : Z := 0.

(** ** [union reg] *)

Record reg : Set := mkReg { pair0 : Z; pair1 : Z }.

(** The member [full], read and written on a little-endian host. *)
Definition full (r : reg) : Z := pair0 r + pair1 r * 256.

Definition of_full (v : Z) : reg :=
  mkReg (wrap 16 v mod 256) (wrap 16 v / 256).

(** ** [class cpu] *)

Record cpu : Type := mkCpu {
  SP : Z;
  PC : Z;
  ram : Z -> Z;
  portInputHandler : Z -> Z;
  portOutput : list (Z * Z);       (* calls made to [portOutputHandler], latest first *)
  _PSW : reg;
  _BC : reg;
  _DE : reg;
  _HL : reg;
  interruptsEnabled : bool;
  interruptPending : bool;
  interruptVector : Z;
  halted : bool
}.

Definition with_SP (v : Z) (s : cpu) : cpu :=
  mkCpu v (PC s) (ram s) (portInputHandler s) (portOutput s) (_PSW s) (_BC s)
        (_DE s) (_HL s) (interruptsEnabled s) (interruptPending s)
        (interruptVector s) (halted s).

Definition with_PC (v : Z) (s : cpu) : cpu :=
  mkCpu (SP s) v (ram s) (portInputHandler s) (portOutput s) (_PSW s) (_BC s)
        (_DE s) (_HL s) (interruptsEnabled s) (interruptPending s)
        (interruptVector s) (halted s).

Definition with_ram (m : Z -> Z) (s : cpu) : cpu :=
  mkCpu (SP s) (PC s) m (portInputHandler s) (portOutput s) (_PSW s) (_BC s)
        (_DE s) (_HL s) (interruptsEnabled s) (interruptPending s)
        (interruptVector s) (halted s).

Definition with_portOutput (o : list (Z * Z)) (s : cpu) : cpu :=
  mkCpu (SP s) (PC s) (ram s) (portInputHandler s) o (_PSW s) (_BC s)
        (_DE s) (_HL s) (interruptsEnabled s) (interruptPending s)
        (interruptVector s) (halted s).

Definition with_PSW (r : reg) (s : cpu) : cpu :=
  mkCpu (SP s) (PC s) (ram s) (portInputHandler s) (portOutput s) r (_BC s)
        (_DE s) (_HL s) (interruptsEnabled s) (interruptPending s)
        (interruptVector s) (halted s).

Definition with_BC (r : reg) (s : cpu) : cpu :=
  mkCpu (SP s) (PC s) (ram s) (portInputHandler s) (portOutput s) (_PSW s) r
        (_DE s) (_HL s) (interruptsEnabled s) (interruptPending s)
        (interruptVector s) (halted s).

Definition with_DE (r : reg) (s : cpu) : cpu :=
  mkCpu (SP s) (PC s) (ram s) (portInputHandler s) (portOutput s) (_PSW s) (_BC s)
        r (_HL s) (interruptsEnabled s) (interruptPending s)
        (interruptVector s) (halted s).

Definition with_HL (r : reg) (s : cpu) : cpu :=
  mkCpu (SP s) (PC s) (ram s) (portInputHandler s) (portOutput s) (_PSW s) (_BC s)
        (_DE s) r (interruptsEnabled s) (interruptPending s)
        (interruptVector s) (halted s).

Definition with_interruptsEnabled (b : bool) (s : cpu) : cpu :=
  mkCpu (SP s) (PC s) (ram s) (portInputHandler s) (portOutput s) (_PSW s) (_BC s)
        (_DE s) (_HL s) b (interruptPending s) (interruptVector s) (halted s).

Definition with_interruptPending (b : bool) (s : cpu) : cpu :=
  mkCpu (SP s) (PC s) (ram s) (portInputHandler s) (portOutput s) (_PSW s) (_BC s)
        (_DE s) (_HL s) (interruptsEnabled s) b (interruptVector s) (halted s).

Definition with_interruptVector (v : Z) (s : cpu) : cpu :=
  mkCpu (SP s) (PC s) (ram s) (portInputHandler s) (portOutput s) (_PSW s) (_BC s)
        (_DE s) (_HL s) (interruptsEnabled s) (interruptPending s) v (halted s).

Definition with_halted (b : bool) (s : cpu) : cpu :=
  mkCpu (SP s) (PC s) (ram s) (portInputHandler s) (portOutput s) (_PSW s) (_BC s)
        (_DE s) (_HL s) (interruptsEnabled s) (interruptPending s)
        (interruptVector s) b.

(** [ram[i] = v] for a byte [v]. *)
Definition store (m : Z -> Z) (i v : Z) : Z -> Z :=
  fun j => if j =? i then wrap 8 v else m j.

(** [*(std::uint16_t* )(ram + a)], read and written on a little-endian host. *)
Definition deref16 (m : Z -> Z) (a : Z) : Z := m a + m (a + 1) * 256.

Definition store16 (m : Z -> Z) (a v : Z) : Z -> Z :=
  store (store m a (wrap 16 v mod 256)) (a + 1) (wrap 16 v / 256).

(** ** References into the object *)

Record ref : Type := mkRef { get : cpu -> Z; set : Z -> cpu -> cpu }.

(** [reg::high] is [pair[0]], [reg::low] is [pair[1]]. *)
Definition with_high (v : Z) (r : reg) : reg := mkReg (wrap 8 v) (pair1 r).
Definition with_low (v : Z) (r : reg) : reg := mkReg (pair0 r) (wrap 8 v).
Definition high (r : reg) : Z := pair0 r.
Definition low (r : reg) : Z := pair1 r.

Definition PSW : ref :=
  mkRef (fun s => full (_PSW s)) (fun v s => with_PSW (of_full v) s).
Definition BC : ref :=
  mkRef (fun s => full (_BC s)) (fun v s => with_BC (of_full v) s).
Definition DE : ref :=
  mkRef (fun s => full (_DE s)) (fun v s => with_DE (of_full v) s).
Definition HL : ref :=
  mkRef (fun s => full (_HL s)) (fun v s => with_HL (of_full v) s).

Definition A : ref :=
  mkRef (fun s => high (_PSW s)) (fun v s => with_PSW (with_high v (_PSW s)) s).
Definition flags : ref :=
  mkRef (fun s => low (_PSW s)) (fun v s => with_PSW (with_low v (_PSW s)) s).
Definition B : ref :=
  mkRef (fun s => high (_BC s)) (fun v s => with_BC (with_high v (_BC s)) s).
Definition C : ref :=
  mkRef (fun s => low (_BC s)) (fun v s => with_BC (with_low v (_BC s)) s).
Definition D : ref :=
  mkRef (fun s => high (_DE s)) (fun v s => with_DE (with_high v (_DE s)) s).
Definition E : ref :=
  mkRef (fun s => low (_DE s)) (fun v s => with_DE (with_low v (_DE s)) s).
Definition H : ref :=
  mkRef (fun s => high (_HL s)) (fun v s => with_HL (with_high v (_HL s)) s).
Definition L : ref :=
  mkRef (fun s => low (_HL s)) (fun v s => with_HL (with_low v (_HL s)) s).

Definition atHL : ref :=
  mkRef (fun s => ram s (get HL s))
        (fun v s => with_ram (store (ram s) (get HL s) v) s).
Definition atSP : ref :=
  mkRef (fun s => deref16 (ram s) (SP s))
        (fun v s => with_ram (store16 (ram s) (SP s) v) s).

(** The public members [SP] and [PC], where the code passes them by reference
    or assigns them. *)
Definition refSP : ref := mkRef SP (fun v s => with_SP (wrap 16 v) s).
Definition refPC : ref := mkRef PC (fun v s => with_PC (wrap 16 v) s).

(** ** Flags *)

Definition getFlag (f : Z) (s : cpu) : Z := Z.shiftr (get flags s) f mod 2.

Definition setFlag (f : Z) (condition : bool) (s : cpu) : cpu :=
  if condition
  then set flags (Z.lor (get flags s) (wrap 32 (Z.shiftl 1 f))) s
  else set flags (Z.land (get flags s) (wrap 32 (Z.lnot (wrap 32 (Z.shiftl 1 f))))) s.

(** ** Construction, loading, fetching *)

(** [cpu::cpu].  [SP], [PC], [interruptsEnabled] and [interruptPending] have
    default member initialisers; [_PSW], [_BC], [_DE], [_HL],
    [interruptVector] and [halted] have none and keep what the storage of the
    object holds ([storage]); the body then sets flag bit 1.  The output trace
    starts empty. *)
Definition cpu_new (storage : cpu) (pih : Z -> Z) (preAllocatedRam : Z -> Z) : cpu :=
  setFlag 1 true
    (mkCpu 0 0 preAllocatedRam pih [] (_PSW storage) (_BC storage)
           (_DE storage) (_HL storage) false false
           (interruptVector storage) (halted storage)).

(** Zero-initialised storage: what an object of static storage duration (the
    [cpu] of every driver in the repository) holds before its constructor
    runs. *)
Definition zeroed : cpu :=
  mkCpu 0 0 (fun _ => 0) (fun _ => 0) [] (mkReg 0 0) (mkReg 0 0) (mkReg 0 0)
        (mkReg 0 0) false false 0 false.

Fixpoint load_from (orig : Z) (i : Z) (code : list Z) (m : Z -> Z) : Z -> Z :=
  match code with
  | [] => m
  | byte :: rest => load_from orig (i + 1) rest (store m (orig + i) byte)
  end.

Definition load (orig : Z) (code : list Z) (s : cpu) : cpu :=
  with_ram (load_from orig 0 code (ram s)) s.

Definition interrupt (vector : Z) (s : cpu) : cpu :=
  with_interruptVector (wrap 8 vector)
    (with_interruptPending true (with_interruptsEnabled false s)).

Definition get8 (s : cpu) : Z * cpu :=
  (ram s (PC s), set refPC (PC s + 1) s).

Definition get16 (s : cpu) : Z * cpu :=
  (deref16 (ram s) (PC s), set refPC (PC s + 2) s).

(** ** Flag updates *)

(** The cast [(std::make_signed_t<T>)result] for an 8-bit [T]. *)
Definition make_signed (bitsT n : Z) : Z :=
  if wrap bitsT n <? 2 ^ (bitsT - 1) then wrap bitsT n else wrap bitsT n - 2 ^ bitsT.

Definition updateFlags (result : Z) (s : cpu) : cpu :=
  let s1 := setFlag sign (make_signed 8 result <? 0) s in
  let s2 := setFlag zero (result =? 0) s1 in
  setFlag parity (negb (to_bool (builtin_parity result))) s2.

(** [std::numeric_limits<std::uint8_t>::max()] is 255. *)
Definition updateCarryFlag (a b : Z) (s : cpu) : cpu :=
  setFlag carry (b >? 255 - a) s.

Definition updateAuxCarryFlag (a b : Z) (s : cpu) : cpu :=
  setFlag auxCarry (lowBitsOf 8 b 4 + lowBitsOf 8 a 4 >? 15) s.

(** ** Instruction kernels *)

Definition inr (r8 : ref) (s : cpu) : cpu :=
  let s1 := setFlag auxCarry (lowBitsOf 8 (get r8 s) 4 =? 15) s in
  let s2 := set r8 (get r8 s1 + 1) s1 in
  updateFlags (get r8 s2) s2.

Definition dcr (r8 : ref) (s : cpu) : cpu :=
  let s1 := setFlag auxCarry (lowBitsOf 8 (get r8 s) 4 =? 0) s in
  let s2 := set r8 (get r8 s1 - 1) s1 in
  updateFlags (get r8 s2) s2.

Definition dad (r16 : ref) (s : cpu) : cpu :=
  let s1 := setFlag carry (get r16 s >? 65535 - get HL s) s in
  set HL (get HL s1 + get r16 s1) s1.

Definition add (r8 : Z) (withCarry : bool) (s : cpu) : cpu :=
  let added :=
    if withCarry && to_bool (getFlag carry s) then wrap 8 (r8 + 1) else r8 in
  let s1 := updateCarryFlag (get A s) added s in
  let s2 := updateAuxCarryFlag (get A s1) added s1 in
  let s3 := set A (get A s2 + added) s2 in
  updateFlags (get A s3) s3.

Definition sub (r8 : Z) (withBorrow : bool) (s : cpu) : cpu :=
  add (twosComp 8 r8) withBorrow s.

Definition cmp (r8 : Z) (s : cpu) : cpu :=
  let copyA := get A s in
  let s1 := sub r8 false s in
  let s2 := setFlag carry (negb (to_bool (getFlag carry s1))) s1 in
  set A copyA s2.

Definition logicAnd (r8 : Z) (s : cpu) : cpu :=
  let s1 := set A (Z.land (get A s) r8) s in
  setFlag carry false (updateFlags (get A s1) s1).

Definition logicOr (r8 : Z) (s : cpu) : cpu :=
  let s1 := set A (Z.lor (get A s) r8) s in
  setFlag carry false (updateFlags (get A s1) s1).

Definition logicXor (r8 : Z) (s : cpu) : cpu :=
  let s1 := set A (Z.lxor (get A s) r8) s in
  setFlag carry false (updateFlags (get A s1) s1).

Definition push (r16 : Z) (s : cpu) : cpu :=
  let s1 := set refSP (SP s - 2) s in
  set atSP (swapBytes r16) s1.

Definition pop (r16 : ref) (s : cpu) : cpu :=
  let s1 := set r16 (swapBytes (get atSP s)) s in
  let s2 := set refSP (SP s1 + 2) s1 in
  (* Reset unused flags *)
  setFlag 1 true (setFlag 3 false (setFlag 5 false s2)).

Definition rst (which : Z) (s : cpu) : cpu :=
  let s1 := push (PC s) s in
  set refPC (8 * which) s1.

Definition jmp (condition : bool) (s : cpu) : cpu :=
  if condition
  then let '(v, s1) := get16 s in set refPC v s1
  else s.

Definition ret (condition : bool) (s : cpu) : cpu :=
  if condition then pop refPC s else s.

Definition call (condition : bool) (s : cpu) : cpu :=
  if condition
  then let s1 := push (PC s) s in
       let '(v, s2) := get16 s1 in set refPC v s2
  else s.

(** ** [cpu::exec]: the opcode switch.  The switch has no [default]; a value
    with no [case] (0xcb) leaves the object as it is. *)

Definition exec (instr : Z) (s : cpu) : cpu :=
  match instr with
  (* NOP, incl. undocumented *)
  | 0x00 | 0x08 | 0x10 | 0x18 | 0x20 | 0x28 | 0x30 | 0x38 => s
  (* LXI r16, d16 *)
  | 0x01 => let '(v, s1) := get16 s in set BC v s1
  | 0x11 => let '(v, s1) := get16 s in set DE v s1
  | 0x21 => let '(v, s1) := get16 s in set HL v s1
  | 0x31 => let '(v, s1) := get16 s in set refSP v s1
  (* STAX r16 *)
  | 0x02 => with_ram (store (ram s) (get BC s) (get A s)) s
  | 0x12 => with_ram (store (ram s) (get DE s) (get A s)) s
  (* LDAX r16 *)
  | 0x0a => set A (ram s (get BC s)) s
  | 0x1a => set A (ram s (get DE s)) s
  (* SHLD a16 *)
  | 0x22 => let v := get HL s in let '(a, s1) := get16 s in with_ram (store (ram s1) a v) s1
  (* LHLD a16 *)
  | 0x2a => let '(a, s1) := get16 s in set HL (ram s1 a) s1
  (* STA a16 *)
  | 0x32 => let v := get A s in let '(a, s1) := get16 s in with_ram (store (ram s1) a v) s1
  (* LDA a16 *)
  | 0x3a => let '(a, s1) := get16 s in set A (ram s1 a) s1
  (* INX r16 *)
  | 0x03 => set BC (get BC s + 1) s
  | 0x13 => set DE (get DE s + 1) s
  | 0x23 => set HL (get HL s + 1) s
  | 0x33 => set refSP (get refSP s + 1) s
  (* DCX r16 *)
  | 0x0b => set BC (get BC s - 1) s
  | 0x1b => set DE (get DE s - 1) s
  | 0x2b => set HL (get HL s - 1) s
  | 0x3b => set refSP (get refSP s - 1) s
  (* INR r8 *)
  | 0x04 => inr B s
  | 0x0c => inr C s
  | 0x14 => inr D s
  | 0x1c => inr E s
  | 0x24 => inr H s
  | 0x2c => inr L s
  | 0x34 => inr atHL s
  | 0x3c => inr A s
  (* DCR r8 *)
  | 0x05 => dcr B s
  | 0x0d => dcr C s
  | 0x15 => dcr D s
  | 0x1d => dcr E s
  | 0x25 => dcr H s
  | 0x2d => dcr L s
  | 0x35 => dcr atHL s
  | 0x3d => dcr A s
  (* MVI r8 *)
  | 0x06 => let '(v, s1) := get8 s in set B v s1
  | 0x0e => let '(v, s1) := get8 s in set C v s1
  | 0x16 => let '(v, s1) := get8 s in set D v s1
  | 0x1e => let '(v, s1) := get8 s in set E v s1
  | 0x26 => let '(v, s1) := get8 s in set H v s1
  | 0x2e => let '(v, s1) := get8 s in set L v s1
  | 0x36 => let '(v, s1) := get8 s in set atHL v s1
  | 0x3e => let '(v, s1) := get8 s in set A v s1
  (* RLC *)
  | 0x07 =>
      let temp := wrap 16 (highBitsOf 8 (get A s) 1) in
      let s1 := setFlag carry (to_bool temp) s in
      let s2 := set A (Z.shiftl (get A s1) 1) s1 in
      set A (get A s2 + wrap 8 temp) s2
  (* RRC *)
  | 0x0f =>
      let temp := wrap 16 (lowBitsOf 8 (get A s) 1) in
      let s1 := setFlag carry (to_bool temp) s in
      let s2 := set A (Z.shiftr (get A s1) 1) s1 in
      set A (get A s2 + wrap 32 (wrap 32 (Z.shiftl 1 7) * wrap 8 temp)) s2
  (* RAL *)
  | 0x17 =>
      let s1 := setFlag carry (to_bool (highBitsOf 8 (get A s) 1)) s in
      set A (Z.shiftl (get A s1) 1) s1
  (* RAR *)
  | 0x1f =>
      let s1 := setFlag carry (to_bool (lowBitsOf 8 (get A s) 1)) s in
      set A (Z.shiftr (get A s1) 1) s1
  (* DAA *)
  | 0x27 =>
      let s1 :=
        if to_bool (getFlag auxCarry s) || (lowBitsOf 8 (get A s) 4 >? 9)
        then setFlag auxCarry true (set A (get A s + 6) s)
        else s in
      let s2 :=
        if to_bool (getFlag carry s1) || (highBitsOf 8 (get A s1) 4 >? 9)
        then setFlag carry true (set A (get A s1 + wrap 32 (Z.shiftl 6 4)) s1)
        else s1 in
      updateFlags (get A s2) s2
  (* STC *)
  | 0x37 => setFlag carry true s
  (* CMA *)
  | 0x2f => set A (Z.lnot (get A s)) s
  (* CMC *)
  | 0x3f => setFlag carry (negb (to_bool (getFlag carry s))) s
  (* DAD r16 *)
  | 0x09 => dad BC s
  | 0x19 => dad DE s
  | 0x29 => dad HL s
  | 0x39 => dad refSP s
  (* MOV r8, r8 *)
  | 0x40 => set B (get B s) s
  | 0x41 => set B (get C s) s
  | 0x42 => set B (get D s) s
  | 0x43 => set B (get E s) s
  | 0x44 => set B (get H s) s
  | 0x45 => set B (get L s) s
  | 0x46 => set B (get atHL s) s
  | 0x47 => set B (get A s) s
  | 0x48 => set C (get B s) s
  | 0x49 => set C (get C s) s
  | 0x4a => set C (get D s) s
  | 0x4b => set C (get E s) s
  | 0x4c => set C (get H s) s
  | 0x4d => set C (get L s) s
  | 0x4e => set C (get atHL s) s
  | 0x4f => set C (get A s) s
  | 0x50 => set D (get B s) s
  | 0x51 => set D (get C s) s
  | 0x52 => set D (get D s) s
  | 0x53 => set D (get E s) s
  | 0x54 => set D (get H s) s
  | 0x55 => set D (get L s) s
  | 0x56 => set D (get atHL s) s
  | 0x57 => set D (get A s) s
  | 0x58 => set E (get B s) s
  | 0x59 => set E (get C s) s
  | 0x5a => set E (get D s) s
  | 0x5b => set E (get E s) s
  | 0x5c => set E (get H s) s
  | 0x5d => set E (get L s) s
  | 0x5e => set E (get atHL s) s
  | 0x5f => set E (get A s) s
  | 0x60 => set H (get B s) s
  | 0x61 => set H (get C s) s
  | 0x62 => set H (get D s) s
  | 0x63 => set H (get E s) s
  | 0x64 => set H (get H s) s
  | 0x65 => set H (get L s) s
  | 0x66 => set H (get atHL s) s
  | 0x67 => set H (get A s) s
  | 0x68 => set L (get B s) s
  | 0x69 => set L (get C s) s
  | 0x6a => set L (get D s) s
  | 0x6b => set L (get E s) s
  | 0x6c => set L (get H s) s
  | 0x6d => set L (get L s) s
  | 0x6e => set L (get atHL s) s
  | 0x6f => set L (get A s) s
  | 0x70 => set atHL (get B s) s
  | 0x71 => set atHL (get C s) s
  | 0x72 => set atHL (get D s) s
  | 0x73 => set atHL (get E s) s
  | 0x74 => set atHL (get H s) s
  | 0x75 => set atHL (get L s) s
  | 0x77 => set atHL (get A s) s
  | 0x78 => set A (get B s) s
  | 0x79 => set A (get C s) s
  | 0x7a => set A (get D s) s
  | 0x7b => set A (get E s) s
  | 0x7c => set A (get H s) s
  | 0x7d => set A (get L s) s
  | 0x7e => set A (get atHL s) s
  | 0x7f => set A (get A s) s
  (* HLT *)
  | 0x76 => with_halted true s
  (* ADD r8 *)
  | 0x80 => add (get B s) false s
  | 0x81 => add (get C s) false s
  | 0x82 => add (get D s) false s
  | 0x83 => add (get E s) false s
  | 0x84 => add (get H s) false s
  | 0x85 => add (get L s) false s
  | 0x86 => add (get atHL s) false s
  | 0x87 => add (get A s) false s
  (* ADC r8 *)
  | 0x88 => add (get B s) true s
  | 0x89 => add (get C s) true s
  | 0x8a => add (get D s) true s
  | 0x8b => add (get E s) true s
  | 0x8c => add (get H s) true s
  | 0x8d => add (get L s) true s
  | 0x8e => add (get atHL s) true s
  | 0x8f => add (get A s) true s
  (* SUB r8 *)
  | 0x90 => sub (get B s) false s
  | 0x91 => sub (get C s) false s
  | 0x92 => sub (get D s) false s
  | 0x93 => sub (get E s) false s
  | 0x94 => sub (get H s) false s
  | 0x95 => sub (get L s) false s
  | 0x96 => sub (get atHL s) false s
  | 0x97 => sub (get A s) false s
  (* SBB r8 *)
  | 0x98 => sub (get B s) true s
  | 0x99 => sub (get C s) true s
  | 0x9a => sub (get D s) true s
  | 0x9b => sub (get E s) true s
  | 0x9c => sub (get H s) true s
  | 0x9d => sub (get L s) true s
  | 0x9e => sub (get atHL s) true s
  | 0x9f => sub (get A s) true s
  (* ANA r8 *)
  | 0xa0 => logicAnd (get B s) s
  | 0xa1 => logicAnd (get C s) s
  | 0xa2 => logicAnd (get D s) s
  | 0xa3 => logicAnd (get E s) s
  | 0xa4 => logicAnd (get H s) s
  | 0xa5 => logicAnd (get L s) s
  | 0xa6 => logicAnd (get atHL s) s
  | 0xa7 => logicAnd (get A s) s
  (* XRA r8 *)
  | 0xa8 => logicXor (get B s) s
  | 0xa9 => logicXor (get C s) s
  | 0xaa => logicXor (get D s) s
  | 0xab => logicXor (get E s) s
  | 0xac => logicXor (get H s) s
  | 0xad => logicXor (get L s) s
  | 0xae => logicXor (get atHL s) s
  | 0xaf => logicXor (get A s) s
  (* ORA r8 *)
  | 0xb0 => logicOr (get B s) s
  | 0xb1 => logicOr (get C s) s
  | 0xb2 => logicOr (get D s) s
  | 0xb3 => logicOr (get E s) s
  | 0xb4 => logicOr (get H s) s
  | 0xb5 => logicOr (get L s) s
  | 0xb6 => logicOr (get atHL s) s
  | 0xb7 => logicOr (get A s) s
  (* CMP r8 *)
  | 0xb8 => cmp (get B s) s
  | 0xb9 => cmp (get C s) s
  | 0xba => cmp (get D s) s
  | 0xbb => cmp (get E s) s
  | 0xbc => cmp (get H s) s
  | 0xbd => cmp (get L s) s
  | 0xbe => cmp (get atHL s) s
  | 0xbf => cmp (get A s) s
  (* ADI *)
  | 0xc6 => let '(v, s1) := get8 s in add v false s1
  (* ACI *)
  | 0xce => let '(v, s1) := get8 s in add v true s1
  (* SUI *)
  | 0xd6 => let '(v, s1) := get8 s in sub v false s1
  (* SBI *)
  | 0xde => let '(v, s1) := get8 s in sub v true s1
  (* ANI *)
  | 0xe6 => let '(v, s1) := get8 s in logicAnd v s1
  (* XRI *)
  | 0xee => let '(v, s1) := get8 s in logicXor v s1
  (* ORI *)
  | 0xf6 => let '(v, s1) := get8 s in logicOr v s1
  (* CPI *)
  | 0xfe => let '(v, s1) := get8 s in cmp v s1
  (* XCHG *)
  | 0xeb =>
      let temp := get HL s in
      let s1 := set HL (get DE s) s in
      set DE temp s1
  (* XTHL *)
  | 0xe3 =>
      let temp := swapBytes (deref16 (ram s) (SP s)) in
      let s1 := with_ram (store16 (ram s) (SP s) (swapBytes (get HL s))) s in
      set HL temp s1
  (* SPHL *)
  | 0xf9 => set refSP (swapBytes (get HL s)) s
  (* PCHL *)
  | 0xe9 => set refPC (swapBytes (get HL s)) s
  (* DI *)
  | 0xf3 => with_interruptsEnabled false s
  (* EI *)
  | 0xfb => with_interruptsEnabled true s
  (* PUSH r16 *)
  | 0xc5 => push (get BC s) s
  | 0xd5 => push (get DE s) s
  | 0xe5 => push (get HL s) s
  | 0xf5 => push (get PSW s) s
  (* POP r16 *)
  | 0xc1 => pop BC s
  | 0xd1 => pop DE s
  | 0xe1 => pop HL s
  | 0xf1 => pop PSW s
  (* IN p8 *)
  | 0xdb => let '(p, s1) := get8 s in set A (wrap 8 (portInputHandler s1 p)) s1
  (* OUT p8 *)
  | 0xd3 => let '(p, s1) := get8 s in with_portOutput ((p, get A s1) :: portOutput s1) s1
  (* RST *)
  | 0xc7 => rst 0 s
  | 0xcf => rst 1 s
  | 0xd7 => rst 2 s
  | 0xdf => rst 3 s
  | 0xe7 => rst 4 s
  | 0xef => rst 5 s
  | 0xf7 => rst 6 s
  | 0xff => rst 7 s
  (* JNZ a16 *)
  | 0xc2 => jmp (negb (to_bool (getFlag zero s))) s
  (* JMP a16 *)
  | 0xc3 => jmp true s
  (* JZ a16 *)
  | 0xca => jmp (to_bool (getFlag zero s)) s
  (* JNC a16 *)
  | 0xd2 => jmp (negb (to_bool (getFlag carry s))) s
  (* JC a16 *)
  | 0xda => jmp (to_bool (getFlag carry s)) s
  (* JPO a16 *)
  | 0xe2 => jmp (negb (to_bool (getFlag parity s))) s
  (* JPE a16 *)
  | 0xea => jmp (to_bool (getFlag parity s)) s
  (* JP a16 *)
  | 0xf2 => jmp (negb (to_bool (getFlag sign s))) s
  (* JM a16 *)
  | 0xfa => jmp (to_bool (getFlag sign s)) s
  (* RET, incl. undocumented *)
  | 0xc9 | 0xd9 => ret true s
  (* RNZ *)
  | 0xc0 => ret (negb (to_bool (getFlag zero s))) s
  (* RZ *)
  | 0xc8 => ret (to_bool (getFlag zero s)) s
  (* RNC *)
  | 0xd0 => ret (negb (to_bool (getFlag carry s))) s
  (* RC *)
  | 0xd8 => ret (to_bool (getFlag carry s)) s
  (* RPO *)
  | 0xe0 => ret (negb (to_bool (getFlag parity s))) s
  (* RPE *)
  | 0xe8 => ret (to_bool (getFlag parity s)) s
  (* RP *)
  | 0xf0 => ret (negb (to_bool (getFlag sign s))) s
  (* RM *)
  | 0xf8 => ret (to_bool (getFlag sign s)) s
  (* CALL, incl. undocumented *)
  | 0xcd | 0xdd | 0xed | 0xfd => call true s
  (* CNZ *)
  | 0xc4 => call (negb (to_bool (getFlag zero s))) s
  (* CZ *)
  | 0xcc => call (to_bool (getFlag zero s)) s
  (* CNC *)
  | 0xd4 => call (negb (to_bool (getFlag carry s))) s
  (* CC *)
  | 0xdc => call (to_bool (getFlag carry s)) s
  (* CPO *)
  | 0xe4 => call (negb (to_bool (getFlag parity s))) s
  (* CPE *)
  | 0xec => call (to_bool (getFlag parity s)) s
  (* CP *)
  | 0xf4 => call (negb (to_bool (getFlag sign s))) s
  (* CM *)
  | 0xfc => call (to_bool (getFlag sign s)) s
  (* All cases should be covered; no `default` is necessary. *)
  (* All cases should be covered; no `default` is necessary. *)
  | _ => s
  end.

Definition step (s : cpu) : cpu :=
  if interruptPending s
  then
    let s1 := exec (interruptVector s) s in
    with_halted false (with_interruptPending false s1)
  else if negb (halted s)
  then let '(instr, s1) := get8 s in exec instr s1
  else s.

End intel8080.

(** * Properties of the core *)

Import intel8080.

(** ** Driving the core *)

(** The two public mutators a host calls between instructions. *)
Inductive host_call : Set :=
  | Step
  | Interrupt (vector : Z).

Definition do_call (c : host_call) (s : cpu) : cpu :=
  match c with
  | Step => step s
  | Interrupt vector => interrupt vector s
  end.

(** [run calls s]: the calls of the list made in order, first one first. *)
Fixpoint run (calls : list host_call) (s : cpu) : cpu :=
  match calls with
  | [] => s
  | c :: rest => run rest (do_call c s)
  end.

(** [n] calls of [step]. *)
Definition steps (n : nat) (s : cpu) : cpu := run (repeat Step n) s.

(** The object as the drivers of the repository create it: a [cpu] of static
    storage duration over a zero-filled [ram], with [portIn] returning 0. *)
Definition power_on : cpu := cpu_new zeroed (fun _ => 0) (fun _ => 0).

(** ** The flag byte *)

Definition fixed_bits (f : Z) : Prop :=
  Z.land f 0x28 = 0 /\ Z.land f 0x02 = 0x02.

Definition fixed_bitsb (f : Z) : bool :=
  (Z.land f 0x28 =? 0) && (Z.land f 0x02 =? 0x02).

Definition is_byteb (v : Z) : bool := (0 <=? v) && (v <? 256).

(** The flag byte is a byte and has its fixed bits. *)
Definition F_ok (s : cpu) : Prop :=
  0 <= get flags s < 256 /\ fixed_bits (get flags s).

(** What [setFlag] stores in the flag byte. *)
Definition flag_write (f : Z) (condition : bool) (old : Z) : Z :=
  if condition
  then wrap 8 (Z.lor old (wrap 32 (Z.shiftl 1 f)))
  else wrap 8 (Z.land old (wrap 32 (Z.lnot (wrap 32 (Z.shiftl 1 f))))).

(** The enumerators of [enum flag]. *)
Definition documented_flag (f : Z) : Prop :=
  f = sign \/ f = zero \/ f = auxCarry \/ f = parity \/ f = carry.

(** A reference whose assignment leaves the flag byte alone. *)
Definition keeps_flags (r : ref) : Prop :=
  forall v s, get flags (set r v s) = get flags s.

(** A property of a byte checked by running over the values below [n]. *)
Fixpoint all_below (n : nat) (P : Z -> bool) : bool :=
  match n with
  | O => true
  | S k => P (Z.of_nat k) && all_below k P
  end.

(** ** Conditional jumps and calls: opcode, flag tested, and the value of the
    flag for which the branch is taken (the [case] labels JNZ .. JM and
    CNZ .. CM of [exec]). *)
Definition conditional_branches : list (Z * Z * bool) :=
  [ (0xc2, zero, false); (0xca, zero, true);
    (0xd2, carry, false); (0xda, carry, true);
    (0xe2, parity, false); (0xea, parity, true);
    (0xf2, sign, false); (0xfa, sign, true);
    (0xc4, zero, false); (0xcc, zero, true);
    (0xd4, carry, false); (0xdc, carry, true);
    (0xe4, parity, false); (0xec, parity, true);
    (0xf4, sign, false); (0xfc, sign, true) ].

(** ** Concrete machines used below *)

(** The BDOS stub that [main.cpp] loads at 0x0005; its comments give the
    address of every instruction. *)
Definition bdos_stub : list Z :=
  [ 0x79;               (* 0x0005  mov a, c  *)
    0xfe; 2;            (* 0x0006  cpi 2     *)
    0xc2; 0x0f; 0x00;   (* 0x0008  jnz 000fh *)
    0x7b;               (* 0x000b  mov a, e  *)
    0xd3; 0x69;         (* 0x000c  out 69h   *)
    0xc9;               (* 0x000e  ret       *)
    0xfe; 9;            (* 0x000f  cpi 9     *)
    0xc0;               (* 0x0011  rnz       *)
    0x1a;               (* 0x0012  ldax de   *)
    0xfe; 0x24;         (* 0x0013  cpi '$'   *)
    0xc8;               (* 0x0015  rz        *)
    0xd3; 0x69;         (* 0x0016  out 69h   *)
    0x13;               (* 0x0018  inx de    *)
    0xc3; 0x12; 0x00 ]. (* 0x0019  jmp 0012h *)

(** The stub entered at 0x0005 with [C = 2] (BDOS character output): after
    two steps the machine is at the [jnz] with the zero flag set. *)
Definition bdos_call_2 : cpu :=
  set refPC 0x0005 (set C 2 (load 0x5 bdos_stub power_on)).

(** A conditional call in the same place: [cnz 000fh] at 0x0008. *)
Definition cnz_at_8 : cpu :=
  load 0x8 [0xc4; 0x0f; 0x00] bdos_call_2.

(** [LXI SP, 0x1000; LXI H, 0xBEEF; PUSH H; POP D] at 0. *)
Definition push_pop_program : list Z :=
  [0x31; 0x00; 0x10; 0x21; 0xEF; 0xBE; 0xE5; 0xD1].

(** The program of [post.cpp]: [LHLD 025bh] at 0, and the bytes 0xff 0x03 at
    0x025b. *)
Definition lhld_test : cpu :=
  load 0x25b [0xff; 0x03] (load 0 [0x2a; 0x5b; 0x02] power_on).

(** Storage that is not zero-filled: an object with automatic or dynamic
    storage duration finds in its members whatever the memory held. *)
Definition stale_storage : cpu :=
  mkCpu 0 0 (fun _ => 0) (fun _ => 0) [] (mkReg 0x12 0x28) (mkReg 0x55 0)
        (mkReg 0 0) (mkReg 0 0) false false 0 true.

(** The eight byte operands of the register field of an opcode, in the order
    of the [case] labels: B, C, D, E, H, L, the byte at [HL], A. *)
Definition byte_operands : list ref := [B; C; D; E; H; L; atHL; A].

(** [MVI A, 0; MVI B, 0xFF; STC; ADC B]. *)
Definition adc_program : list Z := [0x3e; 0x00; 0x06; 0xff; 0x37; 0x88].

(** [MVI A, 5; MVI B, 0; CMP B]. *)
Definition cmp_program : list Z := [0x3e; 0x05; 0x06; 0x00; 0xb8].

(** [MVI B, 1; DCR B] and [MVI B, 0x10; DCR B]. *)
Definition dcr_program_1 : list Z := [0x06; 0x01; 0x05].
Definition dcr_program_16 : list Z := [0x06; 0x10; 0x05].

(** [STC; RAL], with [A = 0] from reset. *)
Definition ral_program : list Z := [0x37; 0x17].

(** ** Well-formed objects: every member holds a value of its C++ type *)

Definition is_byte (v : Z) : Prop := 0 <= v < 256.
Definition is_word (v : Z) : Prop := 0 <= v < 65536.
Definition reg_ok (r : reg) : Prop := is_byte (pair0 r) /\ is_byte (pair1 r).

Record wf (s : cpu) : Prop := mkWf {
  wf_SP : is_word (SP s);
  wf_PC : is_word (PC s);
  wf_ram : forall a, is_byte (ram s a);
  wf_PSW : reg_ok (_PSW s);
  wf_BC : reg_ok (_BC s);
  wf_DE : reg_ok (_DE s);
  wf_HL : reg_ok (_HL s);
  wf_interruptVector : is_byte (interruptVector s)
}.

(** Every reference the code assigns through. *)
Definition all_refs : list ref :=
  [A; B; C; D; E; H; L; flags; BC; DE; HL; PSW; atHL; atSP; refSP; refPC].

(** The register pairs that [push], [pop] and [dad] are used with, the flag
    word apart. *)
Definition pair_operands : list ref := [BC; DE; HL].

(** What [exec] may change besides registers, [SP], [PC] and memory: the
    interrupt enable, the interrupt latch and its vector, the halt state and
    the trace of port writes. *)
Definition control (s : cpu) : bool * bool * Z * bool * list (Z * Z) :=
  (interruptsEnabled s, interruptPending s, interruptVector s, halted s,
   portOutput s).

(** The operands of [dad]: BC, DE, HL and [SP]. *)
Definition dad_operands : list ref := [BC; DE; HL; refSP].

(** PUSH rp and LXI rp: opcode, the register named first in the pair and the
    register named second. *)
Definition push_opcodes : list (Z * ref * ref) :=
  [(0xc5, B, C); (0xd5, D, E); (0xe5, H, L); (0xf5, A, flags)].

Definition lxi_opcodes : list (Z * ref * ref) :=
  [(0x01, B, C); (0x11, D, E); (0x21, H, L)].

(** ** Running over the bytes *)

Lemma all_below_spec (n : nat) (P : Z -> bool) :
  all_below n P = true -> forall z, 0 <= z < Z.of_nat n -> P z = true.
Proof.
  induction n as [|k IH]; intros Hall z Hz.
  - simpl in Hz. lia.
  - simpl in Hall. apply andb_true_iff in Hall. destruct Hall as [Hk Hrest].
    destruct (Z.eq_dec z (Z.of_nat k)) as [->|Hne]; [exact Hk|].
    apply IH; [exact Hrest|lia].
Qed.

Lemma all_bytes (P : Z -> bool) :
  all_below 256 P = true -> forall z, 0 <= z < 256 -> P z = true.
Proof. intros Hall z Hz. apply (all_below_spec 256 P Hall). simpl. lia. Qed.

Lemma fixed_bitsb_spec f : fixed_bitsb f = true <-> fixed_bits f.
Proof.
  unfold fixed_bitsb, fixed_bits. rewrite andb_true_iff, !Z.eqb_eq. tauto.
Qed.

Lemma is_byteb_spec v : is_byteb v = true <-> 0 <= v < 256.
Proof. unfold is_byteb. rewrite andb_true_iff, Z.leb_le, Z.ltb_lt. tauto. Qed.

Lemma wrap8_range v : 0 <= wrap 8 v < 256.
Proof. unfold wrap. apply Z.mod_pos_bound. reflexivity. Qed.

Lemma wrap16_range v : 0 <= wrap 16 v < 65536.
Proof. unfold wrap. apply Z.mod_pos_bound. reflexivity. Qed.

(** ** [setFlag] and [getFlag] on the flag byte *)

Lemma flags_setFlag f c s :
  get flags (setFlag f c s) = flag_write f c (get flags s).
Proof. destruct c; reflexivity. Qed.

Lemma A_setFlag f c s : get A (setFlag f c s) = get A s.
Proof. destruct c; reflexivity. Qed.

Lemma flag_write_range f c old : 0 <= flag_write f c old < 256.
Proof. unfold flag_write. destruct c; apply wrap8_range. Qed.

Lemma flag_write_ok f c old :
  documented_flag f -> 0 <= old < 256 -> fixed_bits old ->
  fixed_bits (flag_write f c old).
Proof.
  intros Hf Hr Hfix.
  assert (Hall : forall b, 0 <= b < 256 ->
            implb (fixed_bitsb b) (fixed_bitsb (flag_write f c b)) = true).
  { apply all_bytes.
    destruct Hf as [-> | [-> | [-> | [-> | ->]]]]; destruct c;
      vm_compute; reflexivity. }
  specialize (Hall old Hr).
  apply fixed_bitsb_spec in Hfix. rewrite Hfix in Hall.
  apply fixed_bitsb_spec, Hall.
Qed.

(** Reading a flag after writing one. *)
Lemma read_flag_write j k c old :
  documented_flag j -> documented_flag k -> 0 <= old < 256 ->
  Z.shiftr (flag_write k c old) j mod 2 =
  if j =? k then of_bool c else Z.shiftr old j mod 2.
Proof.
  intros Hj Hk Hr.
  assert (Hall : forall b, 0 <= b < 256 ->
            (Z.shiftr (flag_write k c b) j mod 2 =?
             (if j =? k then of_bool c else Z.shiftr b j mod 2)) = true).
  { apply all_bytes.
    destruct Hj as [-> | [-> | [-> | [-> | ->]]]];
      destruct Hk as [-> | [-> | [-> | [-> | ->]]]]; destruct c;
      vm_compute; reflexivity. }
  apply Z.eqb_eq, Hall, Hr.
Qed.

Lemma getFlag_setFlag j k c s :
  documented_flag j -> documented_flag k -> 0 <= get flags s < 256 ->
  getFlag j (setFlag k c s) = if j =? k then of_bool c else getFlag j s.
Proof.
  intros Hj Hk Hr. unfold getFlag. rewrite flags_setFlag.
  apply read_flag_write; assumption.
Qed.

Lemma flags_range_setFlag f c s : 0 <= get flags (setFlag f c s) < 256.
Proof. rewrite flags_setFlag. apply flag_write_range. Qed.

Lemma getFlag_bit f s : getFlag f s = 0 \/ getFlag f s = 1.
Proof.
  unfold getFlag.
  pose proof (Z.mod_pos_bound (Z.shiftr (get flags s) f) 2 eq_refl). lia.
Qed.

(** ** The fixed bits are kept by every kernel *)

Create HintDb flagdb.

Lemma keeps_flags_A : keeps_flags A. Proof. intros v s. reflexivity. Qed.
Lemma keeps_flags_B : keeps_flags B. Proof. intros v s. reflexivity. Qed.
Lemma keeps_flags_C : keeps_flags C. Proof. intros v s. reflexivity. Qed.
Lemma keeps_flags_D : keeps_flags D. Proof. intros v s. reflexivity. Qed.
Lemma keeps_flags_E : keeps_flags E. Proof. intros v s. reflexivity. Qed.
Lemma keeps_flags_H : keeps_flags H. Proof. intros v s. reflexivity. Qed.
Lemma keeps_flags_L : keeps_flags L. Proof. intros v s. reflexivity. Qed.
Lemma keeps_flags_BC : keeps_flags BC. Proof. intros v s. reflexivity. Qed.
Lemma keeps_flags_DE : keeps_flags DE. Proof. intros v s. reflexivity. Qed.
Lemma keeps_flags_HL : keeps_flags HL. Proof. intros v s. reflexivity. Qed.
Lemma keeps_flags_atHL : keeps_flags atHL. Proof. intros v s. reflexivity. Qed.
Lemma keeps_flags_atSP : keeps_flags atSP. Proof. intros v s. reflexivity. Qed.
Lemma keeps_flags_refSP : keeps_flags refSP. Proof. intros v s. reflexivity. Qed.
Lemma keeps_flags_refPC : keeps_flags refPC. Proof. intros v s. reflexivity. Qed.

#[local] Hint Resolve keeps_flags_A keeps_flags_B keeps_flags_C keeps_flags_D
  keeps_flags_E keeps_flags_H keeps_flags_L keeps_flags_BC keeps_flags_DE
  keeps_flags_HL keeps_flags_atHL keeps_flags_atSP keeps_flags_refSP
  keeps_flags_refPC : flagdb.

Lemma documented_sign : documented_flag sign.
Proof. unfold documented_flag. tauto. Qed.
Lemma documented_zero : documented_flag zero.
Proof. unfold documented_flag. tauto. Qed.
Lemma documented_auxCarry : documented_flag auxCarry.
Proof. unfold documented_flag. tauto. Qed.
Lemma documented_parity : documented_flag parity.
Proof. unfold documented_flag. tauto. Qed.
Lemma documented_carry : documented_flag carry.
Proof. unfold documented_flag. tauto. Qed.

#[local] Hint Resolve documented_sign documented_zero documented_auxCarry
  documented_parity documented_carry : flagdb.

Lemma F_ok_same_PSW s s' : _PSW s' = _PSW s -> F_ok s -> F_ok s'.
Proof. unfold F_ok. cbn. intros ->. tauto. Qed.

Lemma F_ok_set r v s : keeps_flags r -> F_ok s -> F_ok (set r v s).
Proof. unfold F_ok. intros Hk. rewrite Hk. tauto. Qed.

Lemma F_ok_with_ram m s : F_ok s -> F_ok (with_ram m s).
Proof. apply F_ok_same_PSW. reflexivity. Qed.

Lemma F_ok_with_halted b s : F_ok s -> F_ok (with_halted b s).
Proof. apply F_ok_same_PSW. reflexivity. Qed.

Lemma F_ok_with_interruptsEnabled b s :
  F_ok s -> F_ok (with_interruptsEnabled b s).
Proof. apply F_ok_same_PSW. reflexivity. Qed.

Lemma F_ok_with_interruptPending b s :
  F_ok s -> F_ok (with_interruptPending b s).
Proof. apply F_ok_same_PSW. reflexivity. Qed.

Lemma F_ok_with_interruptVector v s :
  F_ok s -> F_ok (with_interruptVector v s).
Proof. apply F_ok_same_PSW. reflexivity. Qed.

Lemma F_ok_with_portOutput o s : F_ok s -> F_ok (with_portOutput o s).
Proof. apply F_ok_same_PSW. reflexivity. Qed.

Lemma F_ok_setFlag f c s : documented_flag f -> F_ok s -> F_ok (setFlag f c s).
Proof.
  unfold F_ok. intros Hf [Hr Hfix]. rewrite flags_setFlag.
  split; [apply flag_write_range | apply flag_write_ok; assumption].
Qed.

#[local] Hint Resolve F_ok_set F_ok_with_ram F_ok_with_halted
  F_ok_with_interruptsEnabled F_ok_with_interruptPending
  F_ok_with_interruptVector F_ok_with_portOutput F_ok_setFlag : flagdb.

Lemma F_ok_updateFlags v s : F_ok s -> F_ok (updateFlags v s).
Proof. unfold updateFlags. auto 6 with flagdb. Qed.

Lemma F_ok_updateCarryFlag a b s : F_ok s -> F_ok (updateCarryFlag a b s).
Proof. unfold updateCarryFlag. auto with flagdb. Qed.

Lemma F_ok_updateAuxCarryFlag a b s :
  F_ok s -> F_ok (updateAuxCarryFlag a b s).
Proof. unfold updateAuxCarryFlag. auto with flagdb. Qed.

#[local] Hint Resolve F_ok_updateFlags F_ok_updateCarryFlag
  F_ok_updateAuxCarryFlag : flagdb.

Lemma F_ok_inr r s : keeps_flags r -> F_ok s -> F_ok (inr r s).
Proof. unfold inr. auto 6 with flagdb. Qed.

Lemma F_ok_dcr r s : keeps_flags r -> F_ok s -> F_ok (dcr r s).
Proof. unfold dcr. auto 6 with flagdb. Qed.

Lemma F_ok_dad r s : F_ok s -> F_ok (dad r s).
Proof. unfold dad. auto 6 with flagdb. Qed.

Lemma F_ok_add v c s : F_ok s -> F_ok (add v c s).
Proof. unfold add. auto 8 with flagdb. Qed.

Lemma F_ok_sub v c s : F_ok s -> F_ok (sub v c s).
Proof. unfold sub. apply F_ok_add. Qed.

#[local] Hint Resolve F_ok_inr F_ok_dcr F_ok_dad F_ok_add F_ok_sub : flagdb.

Lemma F_ok_cmp v s : F_ok s -> F_ok (cmp v s).
Proof. unfold cmp. auto 6 with flagdb. Qed.

Lemma F_ok_logicAnd v s : F_ok s -> F_ok (logicAnd v s).
Proof. unfold logicAnd. auto 6 with flagdb. Qed.

Lemma F_ok_logicOr v s : F_ok s -> F_ok (logicOr v s).
Proof. unfold logicOr. auto 6 with flagdb. Qed.

Lemma F_ok_logicXor v s : F_ok s -> F_ok (logicXor v s).
Proof. unfold logicXor. auto 6 with flagdb. Qed.

Lemma F_ok_push v s : F_ok s -> F_ok (push v s).
Proof. unfold push. auto 6 with flagdb. Qed.

(** [pop] rewrites bits 5, 3 and 1 whatever byte it finds in the flags. *)
Lemma reset_unused_ok old :
  0 <= old < 256 ->
  fixed_bits (flag_write 1 true (flag_write 3 false (flag_write 5 false old))).
Proof.
  intros Hr. apply fixed_bitsb_spec. revert old Hr.
  apply all_bytes. vm_compute. reflexivity.
Qed.

Lemma F_ok_reset_unused s :
  0 <= get flags s < 256 ->
  F_ok (setFlag 1 true (setFlag 3 false (setFlag 5 false s))).
Proof.
  intros Hr. unfold F_ok. rewrite !flags_setFlag.
  split; [apply flag_write_range | apply reset_unused_ok, Hr].
Qed.

Lemma F_ok_pop r s : keeps_flags r -> F_ok s -> F_ok (pop r s).
Proof.
  intros Hk [Hr _]. unfold pop. apply F_ok_reset_unused.
  rewrite keeps_flags_refSP, Hk. exact Hr.
Qed.

Lemma flags_range_set_PSW v s : 0 <= get flags (set PSW v s) < 256.
Proof.
  cbn. unfold low. cbn. pose proof (wrap16_range v) as Hw.
  split; [apply Z.div_pos; lia | apply Z.div_lt_upper_bound; lia].
Qed.

(** [POP PSW]: the fixed bits hold afterwards, from any state at all and for
    any word on the stack. *)
Lemma F_ok_pop_PSW s : F_ok (pop PSW s).
Proof.
  unfold pop. apply F_ok_reset_unused.
  rewrite keeps_flags_refSP. apply flags_range_set_PSW.
Qed.

Lemma F_ok_rst n s : F_ok s -> F_ok (rst n s).
Proof. unfold rst. auto using F_ok_push with flagdb. Qed.

Lemma F_ok_jmp c s : F_ok s -> F_ok (jmp c s).
Proof. unfold jmp, get16. destruct c; auto 6 with flagdb. Qed.

Lemma F_ok_ret c s : F_ok s -> F_ok (ret c s).
Proof. unfold ret. destruct c; auto using F_ok_pop with flagdb. Qed.

Lemma F_ok_call c s : F_ok s -> F_ok (call c s).
Proof.
  unfold call, get16. destruct c; cbv zeta; auto 6 using F_ok_push with flagdb.
Qed.

#[local] Hint Resolve F_ok_cmp F_ok_logicAnd F_ok_logicOr F_ok_logicXor
  F_ok_push F_ok_pop F_ok_pop_PSW F_ok_rst F_ok_jmp F_ok_ret F_ok_call : flagdb.

(** Case analysis on an opcode down to its eight bits. *)
Ltac split_opcode p := do 8 (try (destruct p as [p|p|])).

Lemma F_ok_exec instr s : F_ok s -> F_ok (exec instr s).
Proof.
  intros Hs.
  destruct instr as [|p|p]; [exact Hs | | exact Hs].
  split_opcode p;
    cbv beta iota zeta delta [exec get8 get16];
    try exact Hs;
    repeat match goal with
           | |- context [if ?c then _ else _] => destruct c
           end;
    auto 8 with flagdb.
Qed.

Lemma F_ok_step s : F_ok s -> F_ok (step s).
Proof.
  intros Hs. unfold step.
  destruct (interruptPending s).
  - auto using F_ok_exec with flagdb.
  - destruct (halted s); cbn [negb]; [exact Hs|].
    unfold get8. apply F_ok_exec. auto with flagdb.
Qed.

Lemma F_ok_interrupt v s : F_ok s -> F_ok (interrupt v s).
Proof. unfold interrupt. auto with flagdb. Qed.

Lemma F_ok_run calls : forall s, F_ok s -> F_ok (run calls s).
Proof.
  induction calls as [|c rest IH]; intros s Hs; [exact Hs|].
  cbn [run]. apply IH. destruct c; [apply F_ok_step | apply F_ok_interrupt]; exact Hs.
Qed.

Lemma F_ok_cpu_new_zeroed pih m : F_ok (cpu_new zeroed pih m).
Proof. unfold F_ok, fixed_bits. cbn. repeat split; lia. Qed.

(** C8.  In every state reached from the reset state (the constructor run on
    zero-filled storage, over any memory and any port input) by any sequence
    of [step] calls, also with [interrupt] calls in between, the flag byte
    satisfies [F & 0b00101000 == 0] and [F & 0b00000010 == 0b00000010];
    and [POP PSW] (opcode 0xf1) leaves the byte so from any state and for
    any word on the stack. *)
Theorem fixed_flag_bits_invariant :
  (forall pih m calls,
      fixed_bits (get flags (run calls (cpu_new zeroed pih m)))) /\
  (forall s, fixed_bits (get flags (exec 0xf1 s))).
Proof.
  split.
  - intros pih m calls.
    apply (F_ok_run calls (cpu_new zeroed pih m)), F_ok_cpu_new_zeroed.
  - intros s. apply (F_ok_pop_PSW s).
Qed.

(** ** Conditional jumps and calls *)

Lemma jmp_not_taken s : jmp false s = s.
Proof. reflexivity. Qed.

Lemma call_not_taken s : call false s = s.
Proof. reflexivity. Qed.

(** A conditional jump or call whose condition is false does nothing at all:
    the two address bytes are not fetched. *)
Lemma exec_branch_not_taken op f pol s :
  In (op, f, pol) conditional_branches ->
  to_bool (getFlag f s) = negb pol ->
  exec op s = s.
Proof.
  intros Hin Hc. unfold conditional_branches in Hin. simpl in Hin.
  repeat (destruct Hin as [Hin | Hin];
          [ injection Hin as <- <- <-;
            cbv beta iota delta [exec]; rewrite Hc; reflexivity | ]).
  contradiction.
Qed.

(** So the step over it advances [PC] by one, to the low address byte. *)
Lemma step_branch_not_taken op f pol s :
  In (op, f, pol) conditional_branches ->
  interruptPending s = false -> halted s = false ->
  ram s (PC s) = op ->
  to_bool (getFlag f s) = negb pol ->
  step s = set refPC (PC s + 1) s.
Proof.
  intros Hin Hp Hh Hop Hc. unfold step. rewrite Hp, Hh. cbn [negb].
  unfold get8. rewrite Hop.
  apply (exec_branch_not_taken op f pol); [exact Hin|exact Hc].
Qed.

(** C1.  At the [jnz 000fh] of the BDOS stub of [main.cpp] (address 0x0008)
    with the zero flag set, so the jump is not taken, [step] leaves
    [PC = 0x0009], the opcode address plus 1 and not plus 3 (0x000b, where
    the stub's own comments place the next instruction); nothing else
    changes.  The same holds for [cnz 000fh] in that place. *)
Theorem not_taken_branch_leaves_PC_at_operand :
  let at_jnz := steps 2 bdos_call_2 in
  let at_cnz := steps 2 cnz_at_8 in
  (PC at_jnz = 0x0008 /\ ram at_jnz 0x0008 = 0xc2 /\ getFlag zero at_jnz = 1 /\
   step at_jnz = set refPC 0x0009 at_jnz /\ PC (step at_jnz) <> 0x000b) /\
  (PC at_cnz = 0x0008 /\ ram at_cnz 0x0008 = 0xc4 /\ getFlag zero at_cnz = 1 /\
   step at_cnz = set refPC 0x0009 at_cnz /\ PC (step at_cnz) <> 0x000b).
Proof.
  cbv zeta. repeat (apply conj); vm_compute; try reflexivity; discriminate.
Qed.

(** ** Interrupts *)

(** [interrupt] latches the vector and switches interrupts off, whatever
    [interruptsEnabled] was. *)
Lemma interrupt_latches v s :
  interruptPending (interrupt v s) = true /\
  interruptsEnabled (interrupt v s) = false /\
  interruptVector (interrupt v s) = wrap 8 v.
Proof. repeat (apply conj); reflexivity. Qed.

(** [step] runs a pending vector without looking at [interruptsEnabled], and
    writes only [interruptPending] and [halted] after it. *)
Lemma step_pending s :
  interruptPending s = true ->
  step s = with_halted false
             (with_interruptPending false (exec (interruptVector s) s)).
Proof. intros Hp. unfold step. rewrite Hp. reflexivity. Qed.

(** C2.  The program is [DI] followed by NOPs.  After [DI] has run and
    [interrupt(0xff)] (RST 7) was called, [interruptsEnabled] is false and
    [interruptPending] is true; the next [step] executes the latched RST 7
    all the same: the return address 0x0001 is pushed ([SP = 0xfffe]) and
    [PC = 0x0038]. *)
Theorem pending_interrupt_run_while_disabled :
  let s := run [Step; Interrupt 0xff] (load 0 [0xf3] power_on) in
  interruptsEnabled s = false /\ interruptPending s = true /\ PC s = 0x0001 /\
  PC (step s) = 0x0038 /\ SP (step s) = 0xfffe /\
  interruptPending (step s) = false.
Proof. cbv zeta. repeat (apply conj); vm_compute; reflexivity. Qed.

(** ** The stack *)

Lemma swapBytes_eq v :
  0 <= v < 65536 -> swapBytes v = v / 256 + v mod 256 * 256.
Proof.
  intros Hv. unfold swapBytes, highBitsOf, lowBitsOf, wrap.
  change (2 ^ 32) with 4294967296. change (2 ^ 16) with 65536.
  change (Z.shiftl 1 (16 - 8)) with 256. change (Z.shiftl 1 8) with 256.
  change (256 mod 4294967296) with 256.
  assert (H1 : 0 <= v / 256 < 256)
    by (split; [apply Z.div_pos; lia | apply Z.div_lt_upper_bound; lia]).
  assert (H2 : 0 <= v mod 256 < 256) by (apply Z.mod_pos_bound; lia).
  rewrite (Z.mod_small (v / 256) 65536) by lia.
  rewrite (Z.mod_small (v mod 256) 65536) by lia.
  rewrite (Z.mod_small _ 4294967296) by lia.
  apply Z.mod_small. lia.
Qed.

(** [push] puts the high-order byte of its argument at the lower address
    [SP - 2] and the low-order byte at [SP - 1]. *)
Lemma push_layout v s :
  0 <= v < 65536 ->
  SP (push v s) = wrap 16 (SP s - 2) /\
  ram (push v s) (SP (push v s)) = v / 256 /\
  ram (push v s) (SP (push v s) + 1) = v mod 256.
Proof.
  intros Hv. unfold push. cbn. unfold store16, store.
  rewrite (swapBytes_eq v Hv).
  assert (H1 : 0 <= v / 256 < 256)
    by (split; [apply Z.div_pos; lia | apply Z.div_lt_upper_bound; lia]).
  assert (H2 : 0 <= v mod 256 < 256) by (apply Z.mod_pos_bound; lia).
  assert (Hw : wrap 16 (v / 256 + v mod 256 * 256) = v / 256 + v mod 256 * 256)
    by (unfold wrap; apply Z.mod_small; change (2 ^ 16) with 65536; lia).
  rewrite Hw.
  assert (Hlo : (v / 256 + v mod 256 * 256) mod 256 = v / 256)
    by (rewrite Z.mod_add by lia; apply Z.mod_small; lia).
  assert (Hhi : (v / 256 + v mod 256 * 256) / 256 = v mod 256)
    by (rewrite Z.div_add by lia; rewrite (Z.div_small (v / 256)) by lia; lia).
  rewrite Hlo, Hhi.
  split; [reflexivity|]. split.
  - replace (wrap 16 (SP s - 2) =? wrap 16 (SP s - 2) + 1) with false
      by (symmetry; apply Z.eqb_neq; lia).
    rewrite Z.eqb_refl. unfold wrap. apply Z.mod_small. exact H1.
  - rewrite Z.eqb_refl. unfold wrap. apply Z.mod_small. exact H2.
Qed.

(** C3.  From the reset state with the program 0x31 0x00 0x10 0x21 0xEF 0xBE
    0xE5 0xD1 at address 0, four steps leave [DE == 0xBEEF] and
    [SP == 0x1000], but memory byte 0x0FFE is 0xBE and memory byte 0x0FFF is
    0xEF: [PUSH] stores the pushed word with its high-order byte first. *)
Theorem push_pop_scenario :
  let s := steps 4 (load 0 push_pop_program power_on) in
  get DE s = 0xBEEF /\ SP s = 0x1000 /\
  ram s 0x0FFE = 0xBE /\ ram s 0x0FFF = 0xEF.
Proof. cbv zeta. repeat (apply conj); vm_compute; reflexivity. Qed.

(** ** Reading the flags after an update *)

Lemma getFlag_setFlag_same j c s :
  documented_flag j -> 0 <= get flags s < 256 ->
  getFlag j (setFlag j c s) = of_bool c.
Proof.
  intros Hj Hr. rewrite getFlag_setFlag by assumption.
  rewrite Z.eqb_refl. reflexivity.
Qed.

Lemma getFlag_setFlag_other j k c s :
  documented_flag j -> documented_flag k -> j <> k ->
  0 <= get flags s < 256 ->
  getFlag j (setFlag k c s) = getFlag j s.
Proof.
  intros Hj Hk Hne Hr. rewrite getFlag_setFlag by assumption.
  apply Z.eqb_neq in Hne. rewrite Hne. reflexivity.
Qed.

Lemma getFlag_set r j v s : keeps_flags r -> getFlag j (set r v s) = getFlag j s.
Proof. intros Hk. unfold getFlag. rewrite Hk. reflexivity. Qed.

Lemma A_updateFlags v s : get A (updateFlags v s) = get A s.
Proof. unfold updateFlags. rewrite !A_setFlag. reflexivity. Qed.

Lemma flags_range_updateFlags v s : 0 <= get flags (updateFlags v s) < 256.
Proof. unfold updateFlags. apply flags_range_setFlag. Qed.

Ltac flag_neq := unfold sign, zero, auxCarry, parity, carry; lia.

Lemma getFlag_sign_updateFlags v s :
  0 <= get flags s < 256 ->
  getFlag sign (updateFlags v s) = of_bool (make_signed 8 v <? 0).
Proof.
  intros Hr. unfold updateFlags.
  rewrite getFlag_setFlag_other;
    [| auto with flagdb | auto with flagdb | flag_neq | apply flags_range_setFlag].
  rewrite getFlag_setFlag_other;
    [| auto with flagdb | auto with flagdb | flag_neq | apply flags_range_setFlag].
  apply getFlag_setFlag_same; [auto with flagdb | exact Hr].
Qed.

Lemma getFlag_zero_updateFlags v s :
  getFlag zero (updateFlags v s) = of_bool (v =? 0).
Proof.
  unfold updateFlags.
  rewrite getFlag_setFlag_other;
    [| auto with flagdb | auto with flagdb | flag_neq | apply flags_range_setFlag].
  apply getFlag_setFlag_same; [auto with flagdb | apply flags_range_setFlag].
Qed.

Lemma getFlag_parity_updateFlags v s :
  getFlag parity (updateFlags v s) = of_bool (negb (to_bool (builtin_parity v))).
Proof.
  unfold updateFlags.
  apply getFlag_setFlag_same; [auto with flagdb | apply flags_range_setFlag].
Qed.

Lemma getFlag_carry_updateFlags v s :
  0 <= get flags s < 256 ->
  getFlag carry (updateFlags v s) = getFlag carry s.
Proof.
  intros Hr. unfold updateFlags.
  rewrite !getFlag_setFlag_other;
    auto with flagdb; try flag_neq; apply flags_range_setFlag.
Qed.

Lemma getFlag_auxCarry_updateFlags v s :
  0 <= get flags s < 256 ->
  getFlag auxCarry (updateFlags v s) = getFlag auxCarry s.
Proof.
  intros Hr. unfold updateFlags.
  rewrite !getFlag_setFlag_other;
    auto with flagdb; try flag_neq; apply flags_range_setFlag.
Qed.

(** ** The bit helpers on a byte *)

Lemma lowBitsOf8_4 x : lowBitsOf 8 x 4 = x mod 16.
Proof.
  unfold lowBitsOf. change (wrap 32 (Z.shiftl 1 4)) with 16.
  unfold wrap. change (2 ^ 8) with 256.
  pose proof (Z.mod_pos_bound x 16 eq_refl). apply Z.mod_small. lia.
Qed.

Lemma lowBitsOf8_1 x : lowBitsOf 8 x 1 = x mod 2.
Proof.
  unfold lowBitsOf. change (wrap 32 (Z.shiftl 1 1)) with 2.
  unfold wrap. change (2 ^ 8) with 256.
  pose proof (Z.mod_pos_bound x 2 eq_refl). apply Z.mod_small. lia.
Qed.

Lemma highBitsOf8_1 x : 0 <= x < 256 -> highBitsOf 8 x 1 = x / 128.
Proof.
  intros Hx. unfold highBitsOf. change (wrap 32 (Z.shiftl 1 (8 - 1))) with 128.
  unfold wrap. change (2 ^ 8) with 256. apply Z.mod_small.
  split; [apply Z.div_pos; lia | apply Z.div_lt_upper_bound; lia].
Qed.

Lemma highBitsOf8_4 x : 0 <= x < 256 -> highBitsOf 8 x 4 = x / 16.
Proof.
  intros Hx. unfold highBitsOf. change (wrap 32 (Z.shiftl 1 (8 - 4))) with 16.
  unfold wrap. change (2 ^ 8) with 256. apply Z.mod_small.
  split; [apply Z.div_pos; lia | apply Z.div_lt_upper_bound; lia].
Qed.

Lemma twosComp8_eq r : twosComp 8 r = (256 - r) mod 256.
Proof.
  unfold twosComp, wrap. change (2 ^ 8) with 256.
  replace (Z.lnot r + 1) with (- r) by (unfold Z.lnot; lia).
  replace (256 - r) with (- r + 1 * 256) by lia.
  rewrite Z.mod_add by lia. reflexivity.
Qed.

Lemma of_bool_1 b : of_bool b = 1 <-> b = true.
Proof. destruct b; simpl; split; intros Hb; try reflexivity; discriminate. Qed.

Lemma to_bool_of_bool b : to_bool (of_bool b) = b.
Proof. destruct b; reflexivity. Qed.

(** ** [add], [sub], [cmp] *)

(** What [add] leaves in [A] and in the flags, in terms of the byte [added]
    that the code forms first. *)
Lemma add_effect v wc s :
  0 <= get flags s < 256 ->
  let added :=
    if wc && to_bool (getFlag carry s) then wrap 8 (v + 1) else v in
  get A (add v wc s) = wrap 8 (get A s + added) /\
  getFlag carry (add v wc s) = of_bool (added >? 255 - get A s) /\
  getFlag auxCarry (add v wc s) =
    of_bool (added mod 16 + get A s mod 16 >? 15) /\
  getFlag zero (add v wc s) = of_bool (wrap 8 (get A s + added) =? 0).
Proof.
  intros Hr added. unfold add. fold added. cbv zeta.
  unfold updateCarryFlag, updateAuxCarryFlag.
  rewrite !A_updateFlags.
  assert (HA : forall x t, get A (set A x t) = wrap 8 x) by reflexivity.
  rewrite !HA, !A_setFlag.
  split; [reflexivity|].
  split; [|split].
  - rewrite getFlag_carry_updateFlags
      by (rewrite keeps_flags_A; apply flags_range_setFlag).
    rewrite getFlag_set by apply keeps_flags_A.
    rewrite getFlag_setFlag_other;
      [| auto with flagdb | auto with flagdb | flag_neq | apply flags_range_setFlag].
    apply getFlag_setFlag_same; [auto with flagdb | exact Hr].
  - rewrite getFlag_auxCarry_updateFlags
      by (rewrite keeps_flags_A; apply flags_range_setFlag).
    rewrite getFlag_set by apply keeps_flags_A.
    rewrite getFlag_setFlag_same;
      [| auto with flagdb | apply flags_range_setFlag].
    rewrite !lowBitsOf8_4. reflexivity.
  - apply getFlag_zero_updateFlags.
Qed.

(** Goals on bytes with [/] and [mod] by constants. *)
Ltac byte_arith :=
  unfold wrap in *;
  repeat match goal with
         | |- context [2 ^ 8] => change (2 ^ 8) with 256
         | |- context [2 ^ 16] => change (2 ^ 16) with 65536
         end;
  Z.to_euclidean_division_equations; lia.

Lemma gtb_1 a b : of_bool (a >? b) = 1 <-> a > b.
Proof. rewrite of_bool_1, Z.gtb_gt. reflexivity. Qed.

Lemma eqb_1 a b : of_bool (a =? b) = 1 <-> a = b.
Proof. rewrite of_bool_1, Z.eqb_eq. reflexivity. Qed.

(** X3.  ADD, ADI: the sum modulo 256 in [A]; carry exactly when the sum exceeds
    0xFF, auxiliary carry exactly when the low nibbles carry, zero exactly
    when the result is 0. *)
Theorem add_no_carry_in v s :
  0 <= get flags s < 256 ->
  get A (add v false s) = (get A s + v) mod 256 /\
  (getFlag carry (add v false s) = 1 <-> get A s + v > 0xFF) /\
  (getFlag auxCarry (add v false s) = 1 <-> get A s mod 16 + v mod 16 > 0x0F) /\
  (getFlag zero (add v false s) = 1 <-> (get A s + v) mod 256 = 0).
Proof.
  intros Hr. destruct (add_effect v false s Hr) as (HA & HC & HAC & HZ).
  cbv zeta in HA, HC, HAC, HZ. cbn [andb] in HA, HC, HAC, HZ.
  rewrite HA, HC, HAC, HZ, !gtb_1, eqb_1. unfold wrap. change (2 ^ 8) with 256.
  repeat (apply conj); try reflexivity; lia.
Qed.

Lemma add_no_carry_in_witness :
  let s := set A 0x3c power_on in
  get A (add 0x3c false s) = (get A s + 0x3c) mod 256 /\
  (getFlag carry (add 0x3c false s) = 1 <-> get A s + 0x3c > 0xFF) /\
  (getFlag auxCarry (add 0x3c false s) = 1 <->
     get A s mod 16 + 0x3c mod 16 > 0x0F) /\
  (getFlag zero (add 0x3c false s) = 1 <-> (get A s + 0x3c) mod 256 = 0).
Proof.
  cbv zeta. apply (add_no_carry_in 0x3c (set A 0x3c power_on)).
  vm_compute. split; [discriminate | reflexivity].
Defined.

(** X4.  ADC, ACI: the incoming carry is added to the operand first, in a byte.
    [A] receives [A + v + c] modulo 256; the carry and the auxiliary carry
    are those of [A] plus the byte [(v + c) mod 256]. *)
Theorem add_with_carry_in v s :
  0 <= get flags s < 256 -> 0 <= v < 256 ->
  let c := getFlag carry s in
  get A (add v true s) = (get A s + v + c) mod 256 /\
  (getFlag carry (add v true s) = 1 <-> get A s + (v + c) mod 256 > 0xFF) /\
  (getFlag auxCarry (add v true s) = 1 <->
     get A s mod 16 + ((v + c) mod 256) mod 16 > 0x0F).
Proof.
  intros Hr Hv c. destruct (add_effect v true s Hr) as (HA & HC & HAC & _).
  cbv zeta in HA, HC, HAC. cbn [andb] in HA, HC, HAC.
  rewrite HA, HC, HAC, !gtb_1. fold c.
  assert (Hadded : (if to_bool c then wrap 8 (v + 1) else v) = (v + c) mod 256).
  { destruct (getFlag_bit carry s) as [H0 | H1]; fold c in H0 || fold c in H1.
    - rewrite H0. cbn. rewrite Z.add_0_r. symmetry. apply Z.mod_small. lia.
    - rewrite H1. reflexivity. }
  rewrite Hadded.
  repeat (apply conj).
  - unfold wrap. change (2 ^ 8) with 256.
    rewrite Z.add_mod_idemp_r by lia. f_equal. lia.
  - lia.
  - lia.
  - lia.
  - lia.
Qed.

Lemma add_with_carry_in_witness :
  let s := setFlag carry true (set A 0x10 power_on) in
  let c := getFlag carry s in
  get A (add 0xff true s) = (get A s + 0xff + c) mod 256 /\
  (getFlag carry (add 0xff true s) = 1 <-> get A s + (0xff + c) mod 256 > 0xFF) /\
  (getFlag auxCarry (add 0xff true s) = 1 <->
     get A s mod 16 + ((0xff + c) mod 256) mod 16 > 0x0F).
Proof.
  cbv zeta.
  apply (add_with_carry_in 0xff (setFlag carry true (set A 0x10 power_on))).
  - vm_compute. split; [discriminate | reflexivity].
  - lia.
Defined.

Lemma sub_rule v s :
  0 <= get flags s < 256 -> 0 <= get A s < 256 -> 0 <= v < 256 ->
  get A (sub v false s) = (get A s - v) mod 256 /\
  (getFlag zero (sub v false s) = 1 <-> get A s = v) /\
  (getFlag carry (sub v false s) = 1 <-> v <> 0 /\ v <= get A s).
Proof.
  intros Hr Ha Hv. unfold sub.
  destruct (add_effect (twosComp 8 v) false s Hr) as (HA & HC & _ & HZ).
  cbv zeta in HA, HC, HZ. cbn [andb] in HA, HC, HZ.
  rewrite HA, HC, HZ, gtb_1, eqb_1, twosComp8_eq.
  repeat (apply conj); try intros Hx; byte_arith.
Qed.

(** X5.  SUB, SUI: [A] receives [A - v] modulo 256 and the zero flag tells whether
    [A = v]; the carry flag is the carry of [A + (256 - v) mod 256], so it is
    set exactly when [v] is not 0 and no borrow occurs. *)
Theorem sub_no_borrow_in v s :
  0 <= get flags s < 256 -> 0 <= get A s < 256 -> 0 <= v < 256 ->
  get A (sub v false s) = (get A s - v) mod 256 /\
  (getFlag zero (sub v false s) = 1 <-> get A s = v) /\
  (getFlag carry (sub v false s) = 1 <-> v <> 0 /\ v <= get A s).
Proof.
  intros Hr Ha Hv. unfold sub.
  destruct (add_effect (twosComp 8 v) false s Hr) as (HA & HC & _ & HZ).
  cbv zeta in HA, HC, HZ. cbn [andb] in HA, HC, HZ.
  rewrite HA, HC, HZ, gtb_1, eqb_1, twosComp8_eq.
  repeat (apply conj); try intros Hx; byte_arith.
Qed.

Lemma sub_no_borrow_in_witness :
  let s := set A 0x05 power_on in
  get A (sub 0x07 false s) = (get A s - 0x07) mod 256 /\
  (getFlag zero (sub 0x07 false s) = 1 <-> get A s = 0x07) /\
  (getFlag carry (sub 0x07 false s) = 1 <-> 0x07 <> 0 /\ 0x07 <= get A s).
Proof.
  cbv zeta. apply (sub_no_borrow_in 0x07 (set A 0x05 power_on)).
  - vm_compute. split; [discriminate | reflexivity].
  - vm_compute. split; [discriminate | reflexivity].
  - lia.
Defined.

(** X6.  CMP, CPI: [A] is left as it was; the zero flag tells whether [A = v]; the
    carry flag is set when [A < v], and also whenever [v] is 0. *)
Theorem cmp_effect v s :
  0 <= get flags s < 256 -> 0 <= get A s < 256 -> 0 <= v < 256 ->
  get A (cmp v s) = get A s /\
  (getFlag zero (cmp v s) = 1 <-> get A s = v) /\
  (getFlag carry (cmp v s) = 1 <-> get A s < v \/ v = 0).
Proof.
  intros Hr Ha Hv. unfold cmp.
  assert (HA : forall x t, get A (set A x t) = wrap 8 x) by reflexivity.
  assert (Hr1 : 0 <= get flags (sub v false s) < 256).
  { unfold sub, add. apply flags_range_updateFlags. }
  destruct (sub_rule v s Hr Ha Hv) as (_ & HZ & HC).
  rewrite HA. rewrite !getFlag_set by apply keeps_flags_A.
  rewrite getFlag_setFlag_other;
    [| auto with flagdb | auto with flagdb | flag_neq | exact Hr1].
  rewrite getFlag_setFlag_same; [| auto with flagdb | exact Hr1].
  split; [unfold wrap; apply Z.mod_small; exact Ha|].
  split; [exact HZ|].
  rewrite of_bool_1.
  destruct (getFlag_bit carry (sub v false s)) as [H0 | H1].
  - rewrite H0. change (negb (to_bool 0)) with true.
    split; [intros _ | reflexivity].
    destruct (Z.eq_dec v 0) as [Hv0 | Hv0]; [right; exact Hv0 | left].
    destruct (Z_lt_ge_dec (get A s) v) as [Hlt | Hge]; [exact Hlt|].
    assert (Hc : getFlag carry (sub v false s) = 1) by (apply HC; lia).
    rewrite H0 in Hc. discriminate.
  - rewrite H1. change (negb (to_bool 1)) with false. split; [discriminate|].
    intros Hx. apply HC in H1. exfalso. lia.
Qed.

Lemma cmp_effect_witness :
  let s := set A 0x05 power_on in
  get A (cmp 0x07 s) = get A s /\
  (getFlag zero (cmp 0x07 s) = 1 <-> get A s = 0x07) /\
  (getFlag carry (cmp 0x07 s) = 1 <-> get A s < 0x07 \/ 0x07 = 0).
Proof.
  cbv zeta. apply (cmp_effect 0x07 (set A 0x05 power_on)).
  - vm_compute. split; [discriminate | reflexivity].
  - vm_compute. split; [discriminate | reflexivity].
  - lia.
Defined.

(** C4.  After [MVI A, 0; MVI B, 0xFF; STC] the accumulator is 0, the operand
    B is 0xFF and the carry flag is 1.  [ADC B] then leaves [A = 0] with the
    carry flag 0 and the auxiliary-carry flag 0, although
    [A + v + c = 0x100 > 0xFF] and [(A & 0x0F) + (v & 0x0F) + c = 0x10 > 0x0F]:
    the incoming carry is folded into the operand byte, which wraps to 0,
    before either flag is computed. *)
Theorem adc_loses_carry_of_operand_plus_carry :
  let before := steps 3 (load 0 adc_program power_on) in
  let after := step before in
  (get A before = 0 /\ get B before = 0xFF /\ getFlag carry before = 1) /\
  (get A after = 0 /\ getFlag carry after = 0 /\ getFlag auxCarry after = 0).
Proof. cbv zeta. repeat (apply conj); vm_compute; reflexivity. Qed.

(** C5.  After [MVI A, 5; MVI B, 0], [CMP B] leaves [A = 5] and the zero flag
    0, but sets the carry flag to 1 although 5 < 0 does not hold. *)
Theorem cmp_zero_operand_sets_carry :
  let before := steps 2 (load 0 cmp_program power_on) in
  let after := step before in
  (get A before = 5 /\ get B before = 0) /\
  (get A after = 5 /\ getFlag zero after = 0 /\ getFlag carry after = 1).
Proof. cbv zeta. repeat (apply conj); vm_compute; reflexivity. Qed.

(** ** [inr], [dcr] *)

Lemma byte_operand_laws r :
  In r byte_operands ->
  keeps_flags r /\
  (forall v s, get r (set r v s) = wrap 8 v) /\
  (forall f c s, get r (setFlag f c s) = get r s).
Proof.
  unfold byte_operands. simpl. intros Hin.
  repeat (destruct Hin as [<- | Hin];
          [ split; [auto with flagdb|];
            split; [intros v s | intros f c s; destruct c; reflexivity] | ]);
    try contradiction; try reflexivity.
  cbn. unfold store. rewrite Z.eqb_refl. reflexivity.
Qed.

Lemma operand_updateFlags r v s :
  In r byte_operands -> get r (updateFlags v s) = get r s.
Proof.
  intros Hin. destruct (byte_operand_laws r Hin) as (_ & _ & Hf).
  unfold updateFlags. rewrite !Hf. reflexivity.
Qed.

(** X8.  DCR: the operand is decremented modulo 256; the carry flag is left as it
    was; the zero flag tells whether the result is 0; the auxiliary-carry
    flag is set exactly when the old low nibble is 0. *)
Theorem dcr_effect r s :
  In r byte_operands -> 0 <= get flags s < 256 ->
  get r (dcr r s) = (get r s - 1) mod 256 /\
  getFlag carry (dcr r s) = getFlag carry s /\
  (getFlag zero (dcr r s) = 1 <-> (get r s - 1) mod 256 = 0) /\
  (getFlag auxCarry (dcr r s) = 1 <-> get r s mod 16 = 0).
Proof.
  intros Hin Hr. destruct (byte_operand_laws r Hin) as (Hk & Hgs & Hf).
  unfold dcr.
  rewrite operand_updateFlags by exact Hin.
  rewrite getFlag_carry_updateFlags, getFlag_auxCarry_updateFlags,
    getFlag_zero_updateFlags
    by (rewrite Hk; apply flags_range_setFlag).
  rewrite !Hgs, !Hf, !getFlag_set by exact Hk.
  rewrite getFlag_setFlag_other;
    [| auto with flagdb | auto with flagdb | flag_neq | exact Hr].
  rewrite getFlag_setFlag_same; [| auto with flagdb | exact Hr].
  rewrite lowBitsOf8_4, !eqb_1. unfold wrap. change (2 ^ 8) with 256.
  repeat (apply conj); try reflexivity; intros Hx; exact Hx.
Qed.

Lemma dcr_effect_witness :
  let s := set B 0x10 power_on in
  get B (dcr B s) = (get B s - 1) mod 256 /\
  getFlag carry (dcr B s) = getFlag carry s /\
  (getFlag zero (dcr B s) = 1 <-> (get B s - 1) mod 256 = 0) /\
  (getFlag auxCarry (dcr B s) = 1 <-> get B s mod 16 = 0).
Proof.
  cbv zeta. apply (dcr_effect B (set B 0x10 power_on)).
  - left. reflexivity.
  - vm_compute. split; [discriminate | reflexivity].
Defined.

(** X7.  INR: the operand is incremented modulo 256; the carry flag is left as it
    was; the zero flag tells whether the result is 0; the auxiliary-carry
    flag is set exactly when the old low nibble is 0xF. *)
Theorem inr_effect r s :
  In r byte_operands -> 0 <= get flags s < 256 ->
  get r (inr r s) = (get r s + 1) mod 256 /\
  getFlag carry (inr r s) = getFlag carry s /\
  (getFlag zero (inr r s) = 1 <-> (get r s + 1) mod 256 = 0) /\
  (getFlag auxCarry (inr r s) = 1 <-> get r s mod 16 = 0x0F).
Proof.
  intros Hin Hr. destruct (byte_operand_laws r Hin) as (Hk & Hgs & Hf).
  unfold inr.
  rewrite operand_updateFlags by exact Hin.
  rewrite getFlag_carry_updateFlags, getFlag_auxCarry_updateFlags,
    getFlag_zero_updateFlags
    by (rewrite Hk; apply flags_range_setFlag).
  rewrite !Hgs, !Hf, !getFlag_set by exact Hk.
  rewrite getFlag_setFlag_other;
    [| auto with flagdb | auto with flagdb | flag_neq | exact Hr].
  rewrite getFlag_setFlag_same; [| auto with flagdb | exact Hr].
  rewrite lowBitsOf8_4, !eqb_1. unfold wrap. change (2 ^ 8) with 256.
  repeat (apply conj); try reflexivity; intros Hx; exact Hx.
Qed.

Lemma inr_effect_witness :
  let s := set atHL 0xff (set HL 0x2000 power_on) in
  get atHL (inr atHL s) = (get atHL s + 1) mod 256 /\
  getFlag carry (inr atHL s) = getFlag carry s /\
  (getFlag zero (inr atHL s) = 1 <-> (get atHL s + 1) mod 256 = 0) /\
  (getFlag auxCarry (inr atHL s) = 1 <-> get atHL s mod 16 = 0x0F).
Proof.
  cbv zeta. apply (inr_effect atHL (set atHL 0xff (set HL 0x2000 power_on))).
  - right. right. right. right. right. right. left. reflexivity.
  - vm_compute. split; [discriminate | reflexivity].
Defined.

(** C6.  [DCR B] with [B = 0x01] (old low nibble not 0) leaves [B = 0] and
    the auxiliary-carry flag 0; with [B = 0x10] (old low nibble 0) it leaves
    [B = 0x0F] and the auxiliary-carry flag 1: the flag is the inverse of
    [(old r & 0x0F) != 0].  The carry flag stays 0 in both. *)
Theorem dcr_aux_carry_inverted :
  let after1 := steps 2 (load 0 dcr_program_1 power_on) in
  let after16 := steps 2 (load 0 dcr_program_16 power_on) in
  (get B after1 = 0x00 /\ getFlag auxCarry after1 = 0 /\ getFlag carry after1 = 0) /\
  (get B after16 = 0x0F /\ getFlag auxCarry after16 = 1 /\ getFlag carry after16 = 0).
Proof. cbv zeta. repeat (apply conj); vm_compute; reflexivity. Qed.

(** ** Rotates *)

Lemma A_set_A x t : get A (set A x t) = wrap 8 x.
Proof. reflexivity. Qed.

(** X12.  RAL: [A] is shifted left by one place, bit 0 of the result is 0 whatever
    the carry flag was, and the carry flag receives the old bit 7. *)
Theorem ral_effect s :
  0 <= get flags s < 256 -> 0 <= get A s < 256 ->
  get A (exec 0x17 s) = (2 * get A s) mod 256 /\
  getFlag carry (exec 0x17 s) = get A s / 128.
Proof.
  intros Hr Ha. cbv beta iota zeta delta [exec].
  rewrite A_set_A, A_setFlag, getFlag_set by apply keeps_flags_A.
  rewrite getFlag_setFlag_same; [| auto with flagdb | exact Hr].
  rewrite highBitsOf8_1 by exact Ha.
  rewrite Z.shiftl_mul_pow2 by lia. change (2 ^ 1) with 2.
  split; [unfold wrap; f_equal; lia|].
  assert (Hq : get A s / 128 = 0 \/ get A s / 128 = 1)
    by (Z.to_euclidean_division_equations; lia).
  destruct Hq as [-> | ->]; reflexivity.
Qed.

(** C7.  After [STC] with [A = 0], [RAL] leaves [A = 0], not 1: the old
    carry does not enter bit 0.  The carry flag becomes the old bit 7, 0. *)
Theorem ral_drops_old_carry :
  let before := steps 1 (load 0 ral_program power_on) in
  let after := step before in
  (get A before = 0 /\ getFlag carry before = 1) /\
  (get A after = 0 /\ getFlag carry after = 0).
Proof. cbv zeta. repeat (apply conj); vm_compute; reflexivity. Qed.

(** ** Construction *)

(** On zero-filled storage the constructor gives the reset state. *)
Lemma cpu_new_zeroed pih m :
  let c := cpu_new zeroed pih m in
  get A c = 0 /\ get flags c = 0x02 /\ get B c = 0 /\ get C c = 0 /\
  get D c = 0 /\ get E c = 0 /\ get H c = 0 /\ get L c = 0 /\
  SP c = 0 /\ PC c = 0 /\ interruptsEnabled c = false /\
  halted c = false /\ interruptPending c = false.
Proof. cbv zeta. repeat (apply conj); reflexivity. Qed.

(** The members without an initialiser come out of the constructor as the
    storage held them; only bit 1 of the flag byte is written. *)
Lemma cpu_new_keeps_storage storage pih m :
  let c := cpu_new storage pih m in
  halted c = halted storage /\ _BC c = _BC storage /\ _DE c = _DE storage /\
  _HL c = _HL storage /\ get A c = get A storage /\
  interruptVector c = interruptVector storage.
Proof. cbv zeta. repeat (apply conj); reflexivity. Qed.

(** C9.  A [cpu] constructed in storage that is not zero-filled: [halted] is
    true, [B] is 0x55, [A] is 0x12 and [F] is 0x2a right after construction;
    only [SP], [PC], [interruptsEnabled] and [interruptPending] have the
    values of the reset state. *)
Theorem constructor_leaves_registers_and_halted :
  let c := cpu_new stale_storage (fun _ => 0) (fun _ => 0) in
  (halted c = true /\ get B c = 0x55 /\ get A c = 0x12 /\ get flags c = 0x2a) /\
  (SP c = 0 /\ PC c = 0 /\ interruptsEnabled c = false /\
   interruptPending c = false).
Proof. cbv zeta. repeat (apply conj); vm_compute; reflexivity. Qed.

(** ** [LHLD], [SHLD] *)

Lemma full_of_full v : full (of_full v) = wrap 16 v.
Proof.
  unfold full, of_full. cbn [pair0 pair1].
  pose proof (Z.div_mod (wrap 16 v) 256). lia.
Qed.

Lemma get_set_HL v s : get HL (set HL v s) = wrap 16 v.
Proof. apply full_of_full. Qed.

Lemma get_set_DE v s : get DE (set DE v s) = wrap 16 v.
Proof. apply full_of_full. Qed.

Lemma get_set_BC v s : get BC (set BC v s) = wrap 16 v.
Proof. apply full_of_full. Qed.

(** C10.  Opcode 0x2a (LHLD) assigns to the pair [HL] the value of the one
    memory byte at the fetched address, zero-extended, and does not write
    memory; opcode 0x22 (SHLD) writes one memory byte at the fetched address,
    the low-order byte of [HL()], and leaves every other byte, the one at
    the address plus 1 among them, as it was. *)
Theorem lhld_shld_transfer_one_byte s addr :
  fst (get16 s) = addr ->
  0 <= ram s addr < 256 ->
  (get HL (exec 0x2a s) = ram s addr /\
   (forall a, ram (exec 0x2a s) a = ram s a)) /\
  (ram (exec 0x22 s) addr = get HL s mod 256 /\
   (forall a, a <> addr -> ram (exec 0x22 s) a = ram s a)).
Proof.
  intros Haddr Hbyte. cbv beta iota zeta delta [exec get16] in *.
  cbn [fst] in Haddr. rewrite Haddr.
  split; split.
  - rewrite get_set_HL. change (ram (set refPC (PC s + 2) s)) with (ram s).
    unfold wrap. apply Z.mod_small.
    change (2 ^ 16) with 65536. lia.
  - intros a. reflexivity.
  - cbn. unfold store. rewrite Z.eqb_refl. reflexivity.
  - intros a Ha. cbn. unfold store.
    apply Z.eqb_neq in Ha. rewrite Ha. reflexivity.
Qed.

(** The program of [post.cpp]: with 0xff 0x03 at 0x025b, [LHLD 025bh] gives
    [HL() = 0x00ff]. *)
Lemma lhld_shld_transfer_one_byte_witness :
  let s := snd (get8 lhld_test) in
  (get HL (exec 0x2a s) = 0xff /\
   (forall a, ram (exec 0x2a s) a = ram s a)) /\
  (ram (exec 0x22 s) 0x025b = get HL s mod 256 /\
   (forall a, a <> 0x025b -> ram (exec 0x22 s) a = ram s a)).
Proof.
  cbv zeta.
  apply (lhld_shld_transfer_one_byte (snd (get8 lhld_test)) 0x025b).
  - vm_compute. reflexivity.
  - split; [vm_compute; discriminate | vm_compute; reflexivity].
Defined.

(** ** Well-formedness is kept *)

Create HintDb wfdb.

Lemma is_byte_wrap8 v : is_byte (wrap 8 v).
Proof. apply wrap8_range. Qed.

Lemma is_word_wrap16 v : is_word (wrap 16 v).
Proof. apply wrap16_range. Qed.

Lemma reg_ok_of_full v : reg_ok (of_full v).
Proof.
  unfold reg_ok, of_full, is_byte. cbn [pair0 pair1].
  pose proof (wrap16_range v). split; Z.to_euclidean_division_equations; lia.
Qed.

Lemma reg_ok_with_high v r : reg_ok r -> reg_ok (with_high v r).
Proof. intros [_ H1]. split; [apply is_byte_wrap8 | exact H1]. Qed.

Lemma reg_ok_with_low v r : reg_ok r -> reg_ok (with_low v r).
Proof. intros [H0 _]. split; [exact H0 | apply is_byte_wrap8]. Qed.

Lemma is_byte_store m i v :
  (forall a, is_byte (m a)) -> forall a, is_byte (store m i v a).
Proof.
  intros Hm a. unfold store. destruct (a =? i); [apply is_byte_wrap8 | apply Hm].
Qed.

Lemma is_byte_store16 m i v :
  (forall a, is_byte (m a)) -> forall a, is_byte (store16 m i v a).
Proof. intros Hm. unfold store16. apply is_byte_store, is_byte_store, Hm. Qed.

#[local] Hint Resolve is_byte_wrap8 is_word_wrap16 reg_ok_of_full
  reg_ok_with_high reg_ok_with_low is_byte_store is_byte_store16 : wfdb.

Lemma wf_set r v s : In r all_refs -> wf s -> wf (set r v s).
Proof.
  intros Hin [HSP HPC Hram HPSW HBC HDE HHL Hvec].
  unfold all_refs in Hin. simpl in Hin.
  repeat (destruct Hin as [<- | Hin];
          [constructor; cbn; auto with wfdb | ]).
  contradiction.
Qed.

Ltac in_refs :=
  unfold all_refs, byte_operands, pair_operands; simpl;
  repeat first [left; reflexivity | right].

#[local] Hint Extern 1 (In _ all_refs) => in_refs : wfdb.

Lemma wf_setFlag f c s : wf s -> wf (setFlag f c s).
Proof. intros Hs. unfold setFlag. destruct c; apply wf_set; auto with wfdb. Qed.

Lemma wf_with_ram_store a v s : wf s -> wf (with_ram (store (ram s) a v) s).
Proof. intros [? ? ? ? ? ? ? ?]. constructor; cbn; auto with wfdb. Qed.

Lemma wf_with_ram_store16 a v s : wf s -> wf (with_ram (store16 (ram s) a v) s).
Proof. intros [? ? ? ? ? ? ? ?]. constructor; cbn; auto with wfdb. Qed.

Lemma wf_with_halted b s : wf s -> wf (with_halted b s).
Proof. intros [? ? ? ? ? ? ? ?]. constructor; assumption. Qed.

Lemma wf_with_interruptsEnabled b s : wf s -> wf (with_interruptsEnabled b s).
Proof. intros [? ? ? ? ? ? ? ?]. constructor; assumption. Qed.

Lemma wf_with_interruptPending b s : wf s -> wf (with_interruptPending b s).
Proof. intros [? ? ? ? ? ? ? ?]. constructor; assumption. Qed.

Lemma wf_with_portOutput o s : wf s -> wf (with_portOutput o s).
Proof. intros [? ? ? ? ? ? ? ?]. constructor; assumption. Qed.

Lemma wf_with_interruptVector v s :
  wf s -> wf (with_interruptVector (wrap 8 v) s).
Proof. intros [? ? ? ? ? ? ? ?]. constructor; cbn; auto with wfdb. Qed.

#[local] Hint Resolve wf_set wf_setFlag wf_with_ram_store wf_with_ram_store16
  wf_with_halted wf_with_interruptsEnabled wf_with_interruptPending
  wf_with_portOutput wf_with_interruptVector : wfdb.

Lemma wf_updateFlags v s : wf s -> wf (updateFlags v s).
Proof. unfold updateFlags. auto with wfdb. Qed.

#[local] Hint Resolve wf_updateFlags : wfdb.

Lemma wf_inr r s : In r all_refs -> wf s -> wf (inr r s).
Proof. unfold inr. auto 6 with wfdb. Qed.

Lemma wf_dcr r s : In r all_refs -> wf s -> wf (dcr r s).
Proof. unfold dcr. auto 6 with wfdb. Qed.

Lemma wf_dad r s : wf s -> wf (dad r s).
Proof. unfold dad. auto 6 with wfdb. Qed.

Lemma wf_add v c s : wf s -> wf (add v c s).
Proof. unfold add, updateCarryFlag, updateAuxCarryFlag. auto 8 with wfdb. Qed.

Lemma wf_sub v c s : wf s -> wf (sub v c s).
Proof. unfold sub. apply wf_add. Qed.

#[local] Hint Resolve wf_inr wf_dcr wf_dad wf_add wf_sub : wfdb.

Lemma wf_cmp v s : wf s -> wf (cmp v s).
Proof. unfold cmp. auto 6 with wfdb. Qed.

Lemma wf_logicAnd v s : wf s -> wf (logicAnd v s).
Proof. unfold logicAnd. auto 6 with wfdb. Qed.

Lemma wf_logicOr v s : wf s -> wf (logicOr v s).
Proof. unfold logicOr. auto 6 with wfdb. Qed.

Lemma wf_logicXor v s : wf s -> wf (logicXor v s).
Proof. unfold logicXor. auto 6 with wfdb. Qed.

Lemma wf_push v s : wf s -> wf (push v s).
Proof. unfold push. auto 6 with wfdb. Qed.

Lemma wf_pop r s : In r all_refs -> wf s -> wf (pop r s).
Proof. unfold pop. auto 8 with wfdb. Qed.

#[local] Hint Resolve wf_cmp wf_logicAnd wf_logicOr wf_logicXor wf_push
  wf_pop : wfdb.

Lemma wf_rst n s : wf s -> wf (rst n s).
Proof. unfold rst. auto 6 with wfdb. Qed.

Lemma wf_jmp c s : wf s -> wf (jmp c s).
Proof. unfold jmp, get16. destruct c; auto 6 with wfdb. Qed.

Lemma wf_ret c s : wf s -> wf (ret c s).
Proof. unfold ret. destruct c; auto 6 with wfdb. Qed.

Lemma wf_call c s : wf s -> wf (call c s).
Proof. unfold call, get16. destruct c; cbv zeta; auto 8 with wfdb. Qed.

#[local] Hint Resolve wf_rst wf_jmp wf_ret wf_call : wfdb.

Lemma wf_exec instr s : wf s -> wf (exec instr s).
Proof.
  intros Hs.
  destruct instr as [|p|p]; [exact Hs | | exact Hs].
  split_opcode p;
    cbv beta iota zeta delta [exec get8 get16];
    try exact Hs;
    repeat match goal with
           | |- context [if ?c then _ else _] => destruct c
           end;
    auto 8 with wfdb.
Qed.

(** X27.  Every member keeps a value of its type across [step] and [interrupt]:
    registers and memory cells stay bytes, [SP] and [PC] stay 16-bit. *)
Theorem wf_preserved calls s : wf s -> wf (run calls s).
Proof.
  revert s. induction calls as [|c rest IH]; intros s Hs; [exact Hs|].
  cbn [run]. apply IH. destruct c as [|v]; cbn [do_call].
  - unfold step. destruct (interruptPending s).
    + auto using wf_exec with wfdb.
    + destruct (halted s); cbn [negb]; [exact Hs|].
      unfold get8. apply wf_exec. auto with wfdb.
  - unfold interrupt. auto with wfdb.
Qed.

Lemma wf_power_on : wf power_on.
Proof.
  constructor; cbn; unfold is_word, is_byte, reg_ok, is_byte; cbn;
    try intros a; lia.
Qed.

Lemma wf_preserved_witness :
  wf (run [Step; Interrupt 0xff; Step] (load 0 push_pop_program power_on)).
Proof.
  apply (wf_preserved [Step; Interrupt 0xff; Step]
           (load 0 push_pop_program power_on)).
  constructor; cbn; unfold is_word, is_byte, reg_ok, is_byte; cbn;
    try lia.
  intros a. unfold store, wrap.
  repeat match goal with
         | |- context [if ?c then _ else _] => destruct c
         end; cbn; lia.
Defined.

(** ** More on the flags *)

(** X1.  A flag read after a flag write: the written flag gives the condition,
    every other documented flag is as before, and the accumulator is not
    touched. *)
Theorem setFlag_then_getFlag j k c s :
  documented_flag j -> documented_flag k -> 0 <= get flags s < 256 ->
  getFlag j (setFlag k c s) = (if j =? k then of_bool c else getFlag j s) /\
  get A (setFlag k c s) = get A s.
Proof.
  intros Hj Hk Hr. split; [apply getFlag_setFlag; assumption | apply A_setFlag].
Qed.

Lemma setFlag_then_getFlag_witness :
  getFlag zero (setFlag carry true power_on) =
    (if zero =? carry then of_bool true else getFlag zero power_on) /\
  get A (setFlag carry true power_on) = get A power_on.
Proof.
  apply (setFlag_then_getFlag zero carry true power_on).
  - right. left. reflexivity.
  - right. right. right. right. reflexivity.
  - vm_compute. split; [discriminate | reflexivity].
Defined.

Lemma make_signed8_negative v :
  0 <= v < 256 -> (make_signed 8 v <? 0) = (128 <=? v).
Proof.
  intros Hv. unfold make_signed, wrap. change (2 ^ 8) with 256.
  change (2 ^ (8 - 1)) with 128. rewrite Z.mod_small by exact Hv.
  destruct (v <? 128) eqn:Hlt.
  - apply Z.ltb_lt in Hlt.
    transitivity false; [apply Z.ltb_ge; lia | symmetry; apply Z.leb_gt; lia].
  - apply Z.ltb_ge in Hlt.
    transitivity true; [apply Z.ltb_lt; lia | symmetry; apply Z.leb_le; lia].
Qed.

(** X2.  [updateFlags] on a byte: the sign flag is bit 7, the zero flag tells
    whether the byte is 0, the parity flag is 1 exactly when the number of
    set bits is even; carry and auxiliary carry are left alone. *)
Theorem updateFlags_effect v s :
  0 <= v < 256 -> 0 <= get flags s < 256 ->
  (getFlag sign (updateFlags v s) = 1 <-> 128 <= v) /\
  (getFlag zero (updateFlags v s) = 1 <-> v = 0) /\
  (getFlag parity (updateFlags v s) = 1 <-> Nat.even (popcount v) = true) /\
  getFlag carry (updateFlags v s) = getFlag carry s /\
  getFlag auxCarry (updateFlags v s) = getFlag auxCarry s.
Proof.
  intros Hv Hr.
  rewrite getFlag_sign_updateFlags by exact Hr.
  rewrite getFlag_zero_updateFlags, getFlag_parity_updateFlags.
  rewrite getFlag_carry_updateFlags, getFlag_auxCarry_updateFlags by exact Hr.
  rewrite make_signed8_negative by exact Hv.
  rewrite !of_bool_1, Z.leb_le, Z.eqb_eq.
  unfold builtin_parity. rewrite to_bool_of_bool, Nat.negb_odd.
  repeat (apply conj); try reflexivity; intros Hx; exact Hx.
Qed.

Lemma updateFlags_effect_witness :
  (getFlag sign (updateFlags 0x78 power_on) = 1 <-> 128 <= 0x78) /\
  (getFlag zero (updateFlags 0x78 power_on) = 1 <-> 0x78 = 0) /\
  (getFlag parity (updateFlags 0x78 power_on) = 1 <->
     Nat.even (popcount 0x78) = true) /\
  getFlag carry (updateFlags 0x78 power_on) = getFlag carry power_on /\
  getFlag auxCarry (updateFlags 0x78 power_on) = getFlag auxCarry power_on.
Proof.
  apply (updateFlags_effect 0x78 power_on).
  - lia.
  - vm_compute. split; [discriminate | reflexivity].
Defined.

(** ** [dad] *)

Lemma dad_operand_laws r :
  In r dad_operands -> forall f c s, get r (setFlag f c s) = get r s.
Proof.
  unfold dad_operands. simpl. intros Hin f c s.
  repeat (destruct Hin as [<- | Hin]; [destruct c; reflexivity|]).
  contradiction.
Qed.

(** X9.  DAD: [HL] receives the sum modulo 65536; the carry flag tells whether
    the sum exceeded 0xFFFF; the other four flags are left alone. *)
Theorem dad_effect r s :
  In r dad_operands -> 0 <= get flags s < 256 ->
  get HL (dad r s) = (get HL s + get r s) mod 65536 /\
  (getFlag carry (dad r s) = 1 <-> get HL s + get r s > 0xFFFF) /\
  (forall j, documented_flag j -> j <> carry ->
             getFlag j (dad r s) = getFlag j s).
Proof.
  intros Hin Hr. unfold dad.
  pose proof (dad_operand_laws r Hin) as Hf.
  pose proof (dad_operand_laws HL) as Hfl.
  assert (HinHL : In HL dad_operands) by (unfold dad_operands; simpl; tauto).
  rewrite get_set_HL, Hf, (Hfl HinHL).
  rewrite getFlag_set by apply keeps_flags_HL.
  rewrite getFlag_setFlag_same; [| auto with flagdb | exact Hr].
  rewrite gtb_1.
  split; [reflexivity|]. split; [lia|].
  intros j Hj Hne. rewrite getFlag_set by apply keeps_flags_HL.
  apply getFlag_setFlag_other; auto with flagdb.
Qed.

Lemma dad_effect_witness :
  let s := set DE 0x8001 (set HL 0x8000 power_on) in
  get HL (dad DE s) = (get HL s + get DE s) mod 65536 /\
  (getFlag carry (dad DE s) = 1 <-> get HL s + get DE s > 0xFFFF) /\
  (forall j, documented_flag j -> j <> carry ->
             getFlag j (dad DE s) = getFlag j s).
Proof.
  cbv zeta. apply (dad_effect DE (set DE 0x8001 (set HL 0x8000 power_on))).
  - right. left. reflexivity.
  - vm_compute. split; [discriminate | reflexivity].
Defined.

(** ** Logic, rotates, DAA *)

Lemma all_bytes2 (P : Z -> Z -> bool) :
  all_below 256 (fun a => all_below 256 (P a)) = true ->
  forall a b, 0 <= a < 256 -> 0 <= b < 256 -> P a b = true.
Proof.
  intros Hall a b Ha Hb.
  apply (all_bytes (P a)); [|exact Hb].
  apply (all_bytes (fun a => all_below 256 (P a)) Hall a Ha).
Qed.

Lemma bitwise_fits_byte a b :
  0 <= a < 256 -> 0 <= b < 256 ->
  wrap 8 (Z.land a b) = Z.land a b /\
  wrap 8 (Z.lor a b) = Z.lor a b /\
  wrap 8 (Z.lxor a b) = Z.lxor a b.
Proof.
  intros Ha Hb.
  assert (Hall : (wrap 8 (Z.land a b) =? Z.land a b)
                 && (wrap 8 (Z.lor a b) =? Z.lor a b)
                 && (wrap 8 (Z.lxor a b) =? Z.lxor a b) = true).
  { revert a b Ha Hb. apply all_bytes2. vm_compute. reflexivity. }
  apply andb_true_iff in Hall. destruct Hall as [Hall Hx].
  apply andb_true_iff in Hall. destruct Hall as [Hand Hor].
  rewrite !Z.eqb_eq in *. auto.
Qed.

Lemma logic_flags result s :
  0 <= get flags s < 256 ->
  let s' := setFlag carry false (updateFlags result (set A result s)) in
  get A s' = wrap 8 result /\
  getFlag carry s' = 0 /\
  getFlag zero s' = of_bool (result =? 0) /\
  getFlag auxCarry s' = getFlag auxCarry s.
Proof.
  intros Hr s'. unfold s'.
  rewrite A_setFlag, A_updateFlags, A_set_A.
  split; [reflexivity|]. split; [|split].
  - apply getFlag_setFlag_same;
      [auto with flagdb | apply flags_range_updateFlags].
  - rewrite getFlag_setFlag_other;
      [| auto with flagdb | auto with flagdb | flag_neq
       | apply flags_range_updateFlags].
    apply getFlag_zero_updateFlags.
  - rewrite getFlag_setFlag_other;
      [| auto with flagdb | auto with flagdb | flag_neq
       | apply flags_range_updateFlags].
    rewrite getFlag_auxCarry_updateFlags by (rewrite keeps_flags_A; exact Hr).
    apply getFlag_set, keeps_flags_A.
Qed.

(** X10.  ANA/ANI, ORA/ORI, XRA/XRI: [A] receives the bitwise result, the carry
    flag is cleared, the zero flag tells whether the result is 0, and the
    auxiliary-carry flag is never written. *)
Theorem logic_effect v s :
  0 <= get flags s < 256 -> 0 <= get A s < 256 -> 0 <= v < 256 ->
  (get A (logicAnd v s) = Z.land (get A s) v /\
   getFlag carry (logicAnd v s) = 0 /\
   (getFlag zero (logicAnd v s) = 1 <-> Z.land (get A s) v = 0) /\
   getFlag auxCarry (logicAnd v s) = getFlag auxCarry s) /\
  (get A (logicOr v s) = Z.lor (get A s) v /\
   getFlag carry (logicOr v s) = 0 /\
   (getFlag zero (logicOr v s) = 1 <-> Z.lor (get A s) v = 0) /\
   getFlag auxCarry (logicOr v s) = getFlag auxCarry s) /\
  (get A (logicXor v s) = Z.lxor (get A s) v /\
   getFlag carry (logicXor v s) = 0 /\
   (getFlag zero (logicXor v s) = 1 <-> Z.lxor (get A s) v = 0) /\
   getFlag auxCarry (logicXor v s) = getFlag auxCarry s).
Proof.
  intros Hr Ha Hv.
  destruct (bitwise_fits_byte (get A s) v Ha Hv) as (Hand & Hor & Hxor).
  unfold logicAnd, logicOr, logicXor. cbv zeta. rewrite !A_set_A.
  rewrite Hand, Hor, Hxor.
  pose proof (logic_flags (Z.land (get A s) v) s Hr) as H1.
  pose proof (logic_flags (Z.lor (get A s) v) s Hr) as H2.
  pose proof (logic_flags (Z.lxor (get A s) v) s Hr) as H3.
  cbv zeta in H1, H2, H3.
  rewrite Hand in H1. rewrite Hor in H2. rewrite Hxor in H3.
  destruct H1 as (A1 & C1 & Z1 & X1). destruct H2 as (A2 & C2 & Z2 & X2).
  destruct H3 as (A3 & C3 & Z3 & X3).
  rewrite Z1, Z2, Z3, !eqb_1.
  repeat (apply conj); try assumption; try reflexivity; intros Hx; exact Hx.
Qed.

Lemma logic_effect_witness :
  let s := set A 0x3c power_on in
  (get A (logicAnd 0x0f s) = Z.land (get A s) 0x0f /\
   getFlag carry (logicAnd 0x0f s) = 0 /\
   (getFlag zero (logicAnd 0x0f s) = 1 <-> Z.land (get A s) 0x0f = 0) /\
   getFlag auxCarry (logicAnd 0x0f s) = getFlag auxCarry s) /\
  (get A (logicOr 0x0f s) = Z.lor (get A s) 0x0f /\
   getFlag carry (logicOr 0x0f s) = 0 /\
   (getFlag zero (logicOr 0x0f s) = 1 <-> Z.lor (get A s) 0x0f = 0) /\
   getFlag auxCarry (logicOr 0x0f s) = getFlag auxCarry s) /\
  (get A (logicXor 0x0f s) = Z.lxor (get A s) 0x0f /\
   getFlag carry (logicXor 0x0f s) = 0 /\
   (getFlag zero (logicXor 0x0f s) = 1 <-> Z.lxor (get A s) 0x0f = 0) /\
   getFlag auxCarry (logicXor 0x0f s) = getFlag auxCarry s).
Proof.
  cbv zeta. apply (logic_effect 0x0f (set A 0x3c power_on)).
  - vm_compute. split; [discriminate | reflexivity].
  - vm_compute. split; [discriminate | reflexivity].
  - lia.
Defined.

(** X11.  RLC and RRC: rotation of [A] by one place, the bit that goes round also
    copied to the carry flag; RRC undoes RLC. *)
Theorem rlc_rrc_effect s :
  0 <= get flags s < 256 -> 0 <= get A s < 256 ->
  (get A (exec 0x07 s) = (2 * get A s) mod 256 + get A s / 128 /\
   getFlag carry (exec 0x07 s) = get A s / 128) /\
  (get A (exec 0x0f s) = get A s / 2 + 128 * (get A s mod 2) /\
   getFlag carry (exec 0x0f s) = get A s mod 2) /\
  get A (exec 0x0f (exec 0x07 s)) = get A s.
Proof.
  intros Hr Ha.
  assert (Hrlc : get A (exec 0x07 s) = (2 * get A s) mod 256 + get A s / 128).
  { cbv beta iota zeta delta [exec].
    rewrite !A_set_A, !A_setFlag, highBitsOf8_1 by exact Ha.
    rewrite Z.shiftl_mul_pow2 by lia. change (2 ^ 1) with 2. byte_arith. }
  assert (Hrrc : forall t, 0 <= get A t < 256 ->
            get A (exec 0x0f t) = get A t / 2 + 128 * (get A t mod 2)).
  { intros t Ht. cbv beta iota zeta delta [exec].
    rewrite !A_set_A, !A_setFlag, lowBitsOf8_1.
    rewrite Z.shiftr_div_pow2 by lia. change (2 ^ 1) with 2.
    change (wrap 32 (Z.shiftl 1 7)) with 128. unfold wrap.
    change (2 ^ 32) with 4294967296. change (2 ^ 16) with 65536.
    change (2 ^ 8) with 256. Z.to_euclidean_division_equations; lia. }
  split; [split; [exact Hrlc|] | split; [split; [apply Hrrc, Ha|] |]].
  - cbv beta iota zeta delta [exec].
    rewrite !getFlag_set by apply keeps_flags_A.
    rewrite getFlag_setFlag_same; [| auto with flagdb | exact Hr].
    rewrite highBitsOf8_1 by exact Ha.
    assert (Hq : get A s / 128 = 0 \/ get A s / 128 = 1)
      by (Z.to_euclidean_division_equations; lia).
    destruct Hq as [-> | ->]; reflexivity.
  - cbv beta iota zeta delta [exec].
    rewrite !getFlag_set by apply keeps_flags_A.
    rewrite getFlag_setFlag_same; [| auto with flagdb | exact Hr].
    rewrite lowBitsOf8_1.
    assert (Hq : get A s mod 2 = 0 \/ get A s mod 2 = 1)
      by (Z.to_euclidean_division_equations; lia).
    destruct Hq as [-> | ->]; reflexivity.
  - rewrite Hrrc; rewrite Hrlc; Z.to_euclidean_division_equations; lia.
Qed.

Lemma rlc_rrc_effect_witness :
  let s := set A 0x81 power_on in
  (get A (exec 0x07 s) = (2 * get A s) mod 256 + get A s / 128 /\
   getFlag carry (exec 0x07 s) = get A s / 128) /\
  (get A (exec 0x0f s) = get A s / 2 + 128 * (get A s mod 2) /\
   getFlag carry (exec 0x0f s) = get A s mod 2) /\
  get A (exec 0x0f (exec 0x07 s)) = get A s.
Proof.
  cbv zeta. apply (rlc_rrc_effect (set A 0x81 power_on)).
  - vm_compute. split; [discriminate | reflexivity].
  - vm_compute. split; [discriminate | reflexivity].
Defined.

(** X13.  RAR: [A] is shifted right by one place, bit 7 of the result is 0
    whatever the carry flag was, and the carry flag receives the old bit 0. *)
Theorem rar_effect s :
  0 <= get flags s < 256 -> 0 <= get A s < 256 ->
  get A (exec 0x1f s) = get A s / 2 /\
  getFlag carry (exec 0x1f s) = get A s mod 2.
Proof.
  intros Hr Ha. cbv beta iota zeta delta [exec].
  rewrite A_set_A, A_setFlag, getFlag_set by apply keeps_flags_A.
  rewrite getFlag_setFlag_same; [| auto with flagdb | exact Hr].
  rewrite lowBitsOf8_1.
  rewrite Z.shiftr_div_pow2 by lia. change (2 ^ 1) with 2.
  split; [byte_arith|].
  assert (Hq : get A s mod 2 = 0 \/ get A s mod 2 = 1)
    by (Z.to_euclidean_division_equations; lia).
  destruct Hq as [-> | ->]; reflexivity.
Qed.

Lemma rar_effect_witness :
  let s := setFlag carry true (set A 0x03 power_on) in
  get A (exec 0x1f s) = get A s / 2 /\
  getFlag carry (exec 0x1f s) = get A s mod 2.
Proof.
  cbv zeta. apply (rar_effect (setFlag carry true (set A 0x03 power_on))).
  - vm_compute. split; [discriminate | reflexivity].
  - vm_compute. split; [discriminate | reflexivity].
Defined.

Lemma ral_effect_witness :
  let s := setFlag carry true (set A 0x81 power_on) in
  get A (exec 0x17 s) = (2 * get A s) mod 256 /\
  getFlag carry (exec 0x17 s) = get A s / 128.
Proof.
  cbv zeta. apply (ral_effect (setFlag carry true (set A 0x81 power_on))).
  - vm_compute. split; [discriminate | reflexivity].
  - vm_compute. split; [discriminate | reflexivity].
Defined.

(** X14.  DAA on a valid packed-BCD byte with the carry and auxiliary-carry flags
    clear adjusts nothing: [A] and both flags are as before. *)
Theorem daa_bcd_unchanged s :
  0 <= get flags s < 256 -> 0 <= get A s < 256 ->
  get A s mod 16 <= 9 -> get A s / 16 <= 9 ->
  getFlag carry s = 0 -> getFlag auxCarry s = 0 ->
  get A (exec 0x27 s) = get A s /\
  getFlag carry (exec 0x27 s) = 0 /\
  getFlag auxCarry (exec 0x27 s) = 0.
Proof.
  intros Hr Ha Hlo Hhi Hc Hac. cbv beta iota zeta delta [exec].
  rewrite Hac, lowBitsOf8_4. cbn [to_bool Z.eqb negb orb].
  replace (get A s mod 16 >? 9) with false
    by (symmetry; rewrite Z.gtb_ltb; apply Z.ltb_ge; lia).
  rewrite Hc, highBitsOf8_4 by exact Ha. cbn [to_bool Z.eqb negb orb].
  replace (get A s / 16 >? 9) with false
    by (symmetry; rewrite Z.gtb_ltb; apply Z.ltb_ge; lia).
  rewrite A_updateFlags, getFlag_carry_updateFlags,
    getFlag_auxCarry_updateFlags by exact Hr.
  repeat (apply conj); [reflexivity | exact Hc | exact Hac].
Qed.

Lemma daa_bcd_unchanged_witness :
  let s := set A 0x42 power_on in
  get A (exec 0x27 s) = get A s /\
  getFlag carry (exec 0x27 s) = 0 /\
  getFlag auxCarry (exec 0x27 s) = 0.
Proof.
  cbv zeta. apply (daa_bcd_unchanged (set A 0x42 power_on)).
  - vm_compute. split; [discriminate | reflexivity].
  - vm_compute. split; [discriminate | reflexivity].
  - vm_compute. discriminate.
  - vm_compute. discriminate.
  - vm_compute. reflexivity.
  - vm_compute. reflexivity.
Defined.

(** ** The stack *)

Lemma swapBytes_twice v :
  0 <= v < 65536 -> swapBytes (swapBytes v) = v.
Proof.
  intros Hv. rewrite (swapBytes_eq v Hv).
  rewrite swapBytes_eq by (Z.to_euclidean_division_equations; lia).
  Z.to_euclidean_division_equations; lia.
Qed.

(** X15.  [swapBytes] is its own inverse on 16-bit values. *)
Theorem swapBytes_involutive v :
  0 <= v < 65536 -> swapBytes (swapBytes v) = v.
Proof.
  intros Hv. rewrite (swapBytes_eq v Hv).
  rewrite swapBytes_eq by (Z.to_euclidean_division_equations; lia).
  Z.to_euclidean_division_equations; lia.
Qed.

Lemma swapBytes_involutive_witness : swapBytes (swapBytes 0xBEEF) = 0xBEEF.
Proof. apply (swapBytes_involutive 0xBEEF). lia. Defined.

Lemma swapBytes_range v : 0 <= swapBytes v < 65536.
Proof. unfold swapBytes. apply wrap16_range. Qed.

Lemma deref16_store16 m a v : deref16 (store16 m a v) a = wrap 16 v.
Proof.
  unfold deref16, store16, store.
  rewrite Z.eqb_refl.
  replace (a =? a + 1) with false by (symmetry; apply Z.eqb_neq; lia).
  rewrite Z.eqb_refl.
  pose proof (wrap16_range v) as Hw. unfold wrap in *.
  change (2 ^ 8) with 256. change (2 ^ 16) with 65536 in *.
  Z.to_euclidean_division_equations; lia.
Qed.

Lemma pair_operand_laws r :
  In r pair_operands ->
  keeps_flags r /\
  (forall v s, get r (set r v s) = wrap 16 v) /\
  (forall f c s, get r (setFlag f c s) = get r s) /\
  (forall v s, get r (set refSP v s) = get r s) /\
  (forall v s, SP (set r v s) = SP s) /\
  (forall v s, ram (set r v s) = ram s).
Proof.
  unfold pair_operands. simpl. intros Hin.
  repeat (destruct Hin as [<- | Hin];
          [ split; [auto with flagdb|];
            split; [intros v s; apply full_of_full|];
            split; [intros f c s; destruct c; reflexivity|];
            repeat split | ]).
  contradiction.
Qed.

Lemma SP_setFlag f c s : SP (setFlag f c s) = SP s.
Proof. destruct c; reflexivity. Qed.

Lemma PC_setFlag f c s : PC (setFlag f c s) = PC s.
Proof. destruct c; reflexivity. Qed.

(** X16.  PUSH then POP into BC, DE or HL gives the pushed word back and restores
    [SP], wherever the stack is. *)
Theorem push_pop_round_trip r v s :
  In r pair_operands -> 0 <= v < 65536 -> 0 <= SP s < 65536 ->
  get r (pop r (push v s)) = v /\
  SP (pop r (push v s)) = SP s.
Proof.
  intros Hin Hv HSP.
  destruct (pair_operand_laws r Hin) as (_ & Hgs & Hf & Hsp & HSPr & Hram).
  unfold pop. rewrite !Hf, !SP_setFlag, Hsp, Hgs.
  unfold push.
  change (get atSP (set atSP (swapBytes v) (set refSP (SP s - 2) s)))
    with (deref16 (store16 (ram s) (wrap 16 (SP s - 2)) (swapBytes v))
                  (wrap 16 (SP s - 2))).
  rewrite deref16_store16.
  assert (Hsw : wrap 16 (swapBytes v) = swapBytes v)
    by (unfold wrap; apply Z.mod_small; apply swapBytes_range).
  rewrite Hsw, (swapBytes_twice v Hv).
  split; [unfold wrap; apply Z.mod_small; exact Hv|].
  change (SP (set refSP (SP (set r v (set atSP (swapBytes v)
            (set refSP (SP s - 2) s))) + 2) (set r v (set atSP (swapBytes v)
            (set refSP (SP s - 2) s)))))
    with (wrap 16 (SP (set r v (set atSP (swapBytes v)
            (set refSP (SP s - 2) s))) + 2)).
  rewrite HSPr.
  change (SP (set atSP (swapBytes v) (set refSP (SP s - 2) s)))
    with (wrap 16 (SP s - 2)).
  byte_arith.
Qed.

Lemma push_pop_round_trip_witness :
  let s := set refSP 0x0001 power_on in
  get DE (pop DE (push 0xBEEF s)) = 0xBEEF /\
  SP (pop DE (push 0xBEEF s)) = SP s.
Proof.
  cbv zeta.
  apply (push_pop_round_trip DE 0xBEEF (set refSP 0x0001 power_on)).
  - right. left. reflexivity.
  - lia.
  - vm_compute. split; [discriminate | reflexivity].
Defined.

Lemma pop_refPC_after_push v s :
  0 <= v < 65536 -> 0 <= SP s < 65536 ->
  forall t, ram t = ram (push v s) -> SP t = SP (push v s) ->
  PC (pop refPC t) = v /\ SP (pop refPC t) = SP s.
Proof.
  intros Hv HSP t Hram HSPt. unfold pop.
  rewrite !PC_setFlag, !SP_setFlag.
  change (PC (set refSP (SP (set refPC (swapBytes (get atSP t)) t) + 2)
            (set refPC (swapBytes (get atSP t)) t)))
    with (wrap 16 (swapBytes (deref16 (ram t) (SP t)))).
  change (SP (set refSP (SP (set refPC (swapBytes (get atSP t)) t) + 2)
            (set refPC (swapBytes (get atSP t)) t)))
    with (wrap 16 (SP t + 2)).
  rewrite Hram, HSPt. unfold push.
  change (SP (set atSP (swapBytes v) (set refSP (SP s - 2) s)))
    with (wrap 16 (SP s - 2)).
  change (ram (set atSP (swapBytes v) (set refSP (SP s - 2) s)))
    with (store16 (ram s) (wrap 16 (SP s - 2)) (swapBytes v)).
  rewrite deref16_store16.
  assert (Hsw : forall x, wrap 16 (swapBytes x) = swapBytes x)
    by (intros x; unfold wrap; apply Z.mod_small; apply swapBytes_range).
  rewrite !Hsw, (swapBytes_twice v Hv).
  split; [reflexivity | byte_arith].
Qed.

(** X18.  CALL pushes [PC] as it stands on entry, before the address operand is
    fetched, so RET after CALL comes back to the first operand byte of the
    CALL, with [SP] restored. *)
Theorem call_then_ret s :
  0 <= PC s < 65536 -> 0 <= SP s < 65536 ->
  PC (ret true (call true s)) = PC s /\
  SP (ret true (call true s)) = SP s.
Proof.
  intros HPC HSP. unfold ret, call, get16. cbv zeta.
  apply (pop_refPC_after_push (PC s) s HPC HSP); reflexivity.
Qed.

Lemma call_then_ret_witness :
  let s := set refSP 0x2400 (set refPC 0x0101 power_on) in
  PC (ret true (call true s)) = PC s /\
  SP (ret true (call true s)) = SP s.
Proof.
  cbv zeta.
  apply (call_then_ret (set refSP 0x2400 (set refPC 0x0101 power_on))).
  - vm_compute. split; [discriminate | reflexivity].
  - vm_compute. split; [discriminate | reflexivity].
Defined.

(** X19.  RST n: [PC] becomes [8 * n], the old [PC] is pushed, and RET comes back
    to it with [SP] restored. *)
Theorem rst_effect n s :
  0 <= n < 8 -> 0 <= PC s < 65536 -> 0 <= SP s < 65536 ->
  PC (rst n s) = 8 * n /\
  SP (rst n s) = (SP s - 2) mod 65536 /\
  PC (ret true (rst n s)) = PC s /\
  SP (ret true (rst n s)) = SP s.
Proof.
  intros Hn HPC HSP.
  split; [change (PC (rst n s)) with (wrap 16 (8 * n)); unfold wrap;
          apply Z.mod_small; change (2 ^ 16) with 65536; lia|].
  split; [reflexivity|].
  unfold ret, rst.
  apply (pop_refPC_after_push (PC s) s HPC HSP); reflexivity.
Qed.

Lemma rst_effect_witness :
  let s := set refSP 0x2400 (set refPC 0x0101 power_on) in
  PC (rst 7 s) = 8 * 7 /\
  SP (rst 7 s) = (SP s - 2) mod 65536 /\
  PC (ret true (rst 7 s)) = PC s /\
  SP (ret true (rst 7 s)) = SP s.
Proof.
  cbv zeta.
  apply (rst_effect 7 (set refSP 0x2400 (set refPC 0x0101 power_on))).
  - lia.
  - vm_compute. split; [discriminate | reflexivity].
  - vm_compute. split; [discriminate | reflexivity].
Defined.

(** ** Halting and interrupts *)

Create HintDb ctldb.

Lemma control_set r v s t :
  In r all_refs -> control s = t -> control (set r v s) = t.
Proof.
  intros Hin <-. unfold all_refs in Hin. simpl in Hin.
  repeat (destruct Hin as [<- | Hin]; [reflexivity|]).
  contradiction.
Qed.

Lemma control_setFlag f c s t : control s = t -> control (setFlag f c s) = t.
Proof. intros <-. destruct c; reflexivity. Qed.

Lemma control_with_ram m s t : control s = t -> control (with_ram m s) = t.
Proof. intros <-. reflexivity. Qed.

#[local] Hint Extern 1 (In _ all_refs) => in_refs : ctldb.
#[local] Hint Resolve control_set control_setFlag control_with_ram : ctldb.

Lemma control_updateFlags v s t :
  control s = t -> control (updateFlags v s) = t.
Proof. unfold updateFlags. auto with ctldb. Qed.

#[local] Hint Resolve control_updateFlags : ctldb.

Lemma control_inr r s t :
  In r all_refs -> control s = t -> control (inr r s) = t.
Proof. unfold inr. auto 6 with ctldb. Qed.

Lemma control_dcr r s t :
  In r all_refs -> control s = t -> control (dcr r s) = t.
Proof. unfold dcr. auto 6 with ctldb. Qed.

Lemma control_dad r s t : control s = t -> control (dad r s) = t.
Proof. unfold dad. auto 6 with ctldb. Qed.

Lemma control_add v c s t : control s = t -> control (add v c s) = t.
Proof. unfold add, updateCarryFlag, updateAuxCarryFlag. auto 8 with ctldb. Qed.

Lemma control_sub v c s t : control s = t -> control (sub v c s) = t.
Proof. unfold sub. apply control_add. Qed.

#[local] Hint Resolve control_inr control_dcr control_dad control_add
  control_sub : ctldb.

Lemma control_cmp v s t : control s = t -> control (cmp v s) = t.
Proof. unfold cmp. auto 6 with ctldb. Qed.

Lemma control_logicAnd v s t : control s = t -> control (logicAnd v s) = t.
Proof. unfold logicAnd. auto 6 with ctldb. Qed.

Lemma control_logicOr v s t : control s = t -> control (logicOr v s) = t.
Proof. unfold logicOr. auto 6 with ctldb. Qed.

Lemma control_logicXor v s t : control s = t -> control (logicXor v s) = t.
Proof. unfold logicXor. auto 6 with ctldb. Qed.

Lemma control_push v s t : control s = t -> control (push v s) = t.
Proof. unfold push. auto 6 with ctldb. Qed.

Lemma control_pop r s t :
  In r all_refs -> control s = t -> control (pop r s) = t.
Proof. unfold pop. auto 8 with ctldb. Qed.

#[local] Hint Resolve control_cmp control_logicAnd control_logicOr
  control_logicXor control_push control_pop : ctldb.

Lemma control_rst n s t : control s = t -> control (rst n s) = t.
Proof. unfold rst. auto 6 with ctldb. Qed.

Lemma control_jmp c s t : control s = t -> control (jmp c s) = t.
Proof. unfold jmp, get16. destruct c; auto 6 with ctldb. Qed.

Lemma control_ret c s t : control s = t -> control (ret c s) = t.
Proof. unfold ret. destruct c; auto 6 with ctldb. Qed.

Lemma control_call c s t : control s = t -> control (call c s) = t.
Proof. unfold call, get16. destruct c; cbv zeta; auto 8 with ctldb. Qed.

#[local] Hint Resolve control_rst control_jmp control_ret control_call : ctldb.

Lemma exec_control instr s :
  instr <> 0x76 -> instr <> 0xf3 -> instr <> 0xfb -> instr <> 0xd3 ->
  control (exec instr s) = control s.
Proof.
  intros H76 Hf3 Hfb Hd3.
  destruct instr as [|p|p]; [reflexivity | | reflexivity].
  split_opcode p;
    try (exfalso;
         solve [ apply H76; reflexivity | apply Hf3; reflexivity
               | apply Hfb; reflexivity | apply Hd3; reflexivity ]);
    cbv beta iota zeta delta [exec get8 get16];
    try reflexivity;
    repeat match goal with
           | |- context [if ?c then _ else _] => destruct c
           end;
    auto 8 with ctldb.
Qed.

(** X28.  No instruction touches the interrupt latch or its vector; only HLT
    (0x76) changes [halted], only DI (0xf3) and EI (0xfb) change
    [interruptsEnabled], and only OUT (0xd3) calls the port output
    handler. *)
Theorem exec_control_frame instr s :
  interruptPending (exec instr s) = interruptPending s /\
  interruptVector (exec instr s) = interruptVector s /\
  (instr <> 0x76 -> halted (exec instr s) = halted s) /\
  (instr <> 0xf3 -> instr <> 0xfb ->
   interruptsEnabled (exec instr s) = interruptsEnabled s) /\
  (instr <> 0xd3 -> portOutput (exec instr s) = portOutput s).
Proof.
  destruct (Z.eq_dec instr 0x76) as [-> | H76];
    [repeat (apply conj); try reflexivity; intros; try reflexivity; congruence|].
  destruct (Z.eq_dec instr 0xf3) as [-> | Hf3];
    [repeat (apply conj); try reflexivity; intros; try reflexivity; congruence|].
  destruct (Z.eq_dec instr 0xfb) as [-> | Hfb];
    [repeat (apply conj); try reflexivity; intros; try reflexivity; congruence|].
  destruct (Z.eq_dec instr 0xd3) as [-> | Hd3];
    [repeat (apply conj); try reflexivity; intros; try reflexivity; congruence|].
  pose proof (exec_control instr s H76 Hf3 Hfb Hd3) as Hc.
  unfold control in Hc. injection Hc as Hie Hip Hiv Hh Hpo.
  repeat (apply conj); intros; assumption.
Qed.

(** X29.  A halted machine with no interrupt latched stays as it is under any
    number of steps. *)
Theorem halted_idle n s :
  interruptPending s = false -> halted s = true -> steps n s = s.
Proof.
  intros Hp Hh. unfold steps.
  induction n as [|k IH]; [reflexivity|].
  cbn [repeat run do_call].
  assert (Hstep : step s = s) by (unfold step; rewrite Hp, Hh; reflexivity).
  rewrite Hstep. exact IH.
Qed.

Lemma halted_idle_witness :
  steps 5 (step (load 0 [0x76] power_on)) = step (load 0 [0x76] power_on).
Proof.
  apply (halted_idle 5 (step (load 0 [0x76] power_on))).
  - vm_compute. reflexivity.
  - vm_compute. reflexivity.
Defined.

(** X30.  [interrupt] followed by [step]: the vector is executed from any state,
    halted or not; afterwards nothing is latched and the machine is not
    halted, even when the vector is HLT; interrupts are disabled unless the
    vector is EI. *)
Theorem interrupt_then_step v s :
  let s' := step (interrupt v s) in
  s' = with_halted false
         (with_interruptPending false (exec (wrap 8 v) (interrupt v s))) /\
  interruptPending s' = false /\
  halted s' = false /\
  (wrap 8 v <> 0xfb -> interruptsEnabled s' = false).
Proof.
  cbv zeta.
  assert (Hs : step (interrupt v s) =
               with_halted false
                 (with_interruptPending false
                    (exec (wrap 8 v) (interrupt v s)))) by reflexivity.
  rewrite Hs. repeat (apply conj); try reflexivity.
  intros Hne.
  change (interruptsEnabled (exec (wrap 8 v) (interrupt v s)) = false).
  destruct (Z.eq_dec (wrap 8 v) 0xf3) as [Heq | Hf3];
    [rewrite Heq; reflexivity|].
  destruct (Z.eq_dec (wrap 8 v) 0x76) as [Heq | H76];
    [rewrite Heq; reflexivity|].
  destruct (Z.eq_dec (wrap 8 v) 0xd3) as [Heq | Hd3];
    [rewrite Heq; reflexivity|].
  pose proof (exec_control (wrap 8 v) (interrupt v s) H76 Hf3 Hne Hd3) as Hc.
  unfold control in Hc. injection Hc as Hie _ _ _ _.
  rewrite Hie. reflexivity.
Qed.

Lemma interrupt_then_step_witness :
  let s := step (load 0 [0x76] power_on) in
  let s' := step (interrupt 0x76 s) in
  s' = with_halted false
         (with_interruptPending false (exec (wrap 8 0x76) (interrupt 0x76 s))) /\
  interruptPending s' = false /\
  halted s' = false /\
  (wrap 8 0x76 <> 0xfb -> interruptsEnabled s' = false).
Proof.
  cbv zeta.
  apply (interrupt_then_step 0x76 (step (load 0 [0x76] power_on))).
Defined.

(** ** [load] *)

Lemma load_from_outside orig code :
  forall i m a,
    a < orig + i \/ orig + i + Z.of_nat (length code) <= a ->
    load_from orig i code m a = m a.
Proof.
  induction code as [|byte rest IH]; intros i m a Ha; [reflexivity|].
  cbn [load_from]. cbn [length] in Ha.
  rewrite IH by lia. unfold store.
  replace (a =? orig + i) with false by (symmetry; apply Z.eqb_neq; lia).
  reflexivity.
Qed.

Lemma load_from_inside orig code :
  forall i m k,
    (k < length code)%nat ->
    load_from orig i code m (orig + i + Z.of_nat k) = wrap 8 (nth k code 0).
Proof.
  induction code as [|byte rest IH]; intros i m k Hk; [cbn in Hk; lia|].
  cbn [load_from]. destruct k as [|k'].
  - rewrite load_from_outside by lia. unfold store.
    replace (orig + i + Z.of_nat 0 =? orig + i) with true
      by (symmetry; apply Z.eqb_eq; lia).
    reflexivity.
  - cbn [length] in Hk. cbn [nth].
    replace (orig + i + Z.of_nat (S k')) with (orig + (i + 1) + Z.of_nat k')
      by lia.
    apply IH. lia.
Qed.

(** X26.  [load] copies the bytes, each converted to a byte, to consecutive
    indices from [orig] on, and leaves every other memory cell and the whole
    register file as they were. *)
Theorem load_effect orig code s :
  (forall k, (k < length code)%nat ->
     ram (load orig code s) (orig + Z.of_nat k) = wrap 8 (nth k code 0)) /\
  (forall a, a < orig \/ orig + Z.of_nat (length code) <= a ->
     ram (load orig code s) a = ram s a) /\
  (_PSW (load orig code s), _BC (load orig code s), _DE (load orig code s),
   _HL (load orig code s), SP (load orig code s), PC (load orig code s))
  = (_PSW s, _BC s, _DE s, _HL s, SP s, PC s).
Proof.
  split; [|split; [|reflexivity]].
  - intros k Hk. unfold load. cbn [ram with_ram].
    replace (orig + Z.of_nat k) with (orig + 0 + Z.of_nat k) by lia.
    apply load_from_inside, Hk.
  - intros a Ha. unfold load. cbn [ram with_ram].
    apply load_from_outside. lia.
Qed.

(** ** Register pairs and their halves *)

Lemma of_full_full r : reg_ok r -> of_full (full r) = r.
Proof.
  destruct r as [p0 p1]. unfold reg_ok, is_byte, of_full, full, wrap.
  cbn [pair0 pair1]. intros [H0 H1]. change (2 ^ 16) with 65536.
  f_equal; Z.to_euclidean_division_equations; lia.
Qed.

Lemma halves_of_full v :
  0 <= v < 65536 ->
  pair0 (of_full v) = v mod 256 /\ pair1 (of_full v) = v / 256 /\
  full (of_full v) = v.
Proof.
  intros Hv. rewrite full_of_full. unfold of_full, wrap. cbn [pair0 pair1].
  change (2 ^ 16) with 65536. rewrite !(Z.mod_small v 65536) by exact Hv.
  repeat (apply conj); reflexivity.
Qed.

(** X22.  A 16-bit value written to a pair reads back unchanged, and the register
    named first (B, D, H, A) holds its low-order byte, the register named
    second (C, E, L, F) its high-order byte. *)
Theorem pair_and_halves v s :
  0 <= v < 65536 ->
  (get BC (set BC v s) = v /\ get B (set BC v s) = v mod 256 /\
   get C (set BC v s) = v / 256) /\
  (get DE (set DE v s) = v /\ get D (set DE v s) = v mod 256 /\
   get E (set DE v s) = v / 256) /\
  (get HL (set HL v s) = v /\ get H (set HL v s) = v mod 256 /\
   get L (set HL v s) = v / 256) /\
  (get PSW (set PSW v s) = v /\ get A (set PSW v s) = v mod 256 /\
   get flags (set PSW v s) = v / 256).
Proof.
  intros Hv. destruct (halves_of_full v Hv) as (H0 & H1 & Hf).
  repeat (apply conj); assumption.
Qed.

Lemma pair_and_halves_witness :
  (get BC (set BC 0x1234 power_on) = 0x1234 /\
   get B (set BC 0x1234 power_on) = 0x1234 mod 256 /\
   get C (set BC 0x1234 power_on) = 0x1234 / 256) /\
  (get DE (set DE 0x1234 power_on) = 0x1234 /\
   get D (set DE 0x1234 power_on) = 0x1234 mod 256 /\
   get E (set DE 0x1234 power_on) = 0x1234 / 256) /\
  (get HL (set HL 0x1234 power_on) = 0x1234 /\
   get H (set HL 0x1234 power_on) = 0x1234 mod 256 /\
   get L (set HL 0x1234 power_on) = 0x1234 / 256) /\
  (get PSW (set PSW 0x1234 power_on) = 0x1234 /\
   get A (set PSW 0x1234 power_on) = 0x1234 mod 256 /\
   get flags (set PSW 0x1234 power_on) = 0x1234 / 256).
Proof. apply (pair_and_halves 0x1234 power_on). lia. Defined.

(** X23.  XCHG exchanges the two unions whole, so the byte registers go with
    them: afterwards H, L hold the old D, E and D, E the old H, L. *)
Theorem xchg_effect s :
  reg_ok (_HL s) -> reg_ok (_DE s) ->
  _HL (exec 0xeb s) = _DE s /\ _DE (exec 0xeb s) = _HL s /\
  _HL (exec 0xeb (exec 0xeb s)) = _HL s /\
  _DE (exec 0xeb (exec 0xeb s)) = _DE s.
Proof.
  intros HHL HDE.
  assert (Hx : forall t, reg_ok (_HL t) -> reg_ok (_DE t) ->
             _HL (exec 0xeb t) = _DE t /\ _DE (exec 0xeb t) = _HL t).
  { intros t H1 H2. cbv beta iota zeta delta [exec].
    split; [apply (of_full_full (_DE t) H2) | apply (of_full_full (_HL t) H1)]. }
  destruct (Hx s HHL HDE) as [E1 E2].
  assert (H1' : reg_ok (_HL (exec 0xeb s))) by (rewrite E1; exact HDE).
  assert (H2' : reg_ok (_DE (exec 0xeb s))) by (rewrite E2; exact HHL).
  destruct (Hx (exec 0xeb s) H1' H2') as [E3 E4].
  repeat (apply conj); congruence.
Qed.

Lemma xchg_effect_witness :
  let s := set DE 0x1234 (set HL 0xBEEF power_on) in
  _HL (exec 0xeb s) = _DE s /\ _DE (exec 0xeb s) = _HL s /\
  _HL (exec 0xeb (exec 0xeb s)) = _HL s /\
  _DE (exec 0xeb (exec 0xeb s)) = _DE s.
Proof.
  cbv zeta. apply (xchg_effect (set DE 0x1234 (set HL 0xBEEF power_on))).
  - vm_compute. repeat split; discriminate.
  - vm_compute. repeat split; discriminate.
Defined.

(** ** The regular part of the opcode map *)

Ltac below8 d H :=
  let Hd := fresh "Hd" in
  assert (Hd : (d = 0 \/ d = 1 \/ d = 2 \/ d = 3 \/ d = 4 \/ d = 5 \/ d = 6
                \/ d = 7)%nat) by lia;
  clear H;
  destruct Hd as [-> | [-> | [-> | [-> | [-> | [-> | [-> | ->]]]]]]].

Ltac literal_opcode :=
  repeat match goal with
         | |- context [exec ?e _] =>
             lazymatch e with
             | Z0 => fail
             | Zpos _ => fail
             | _ => let v := eval vm_compute in e in change e with v
             end
         end.

(** X24.  MOV: the opcode [0x40 + 8 * d + s] copies operand [s] to operand [d]
    (B, C, D, E, H, L, the byte at [HL], A in this order) for all 63 pairs
    other than (6, 6), which is HLT; [PC] is not moved. *)
Theorem mov_dispatch d sidx s :
  (d < 8)%nat -> (sidx < 8)%nat -> ~ (d = 6%nat /\ sidx = 6%nat) ->
  let op := 0x40 + 8 * Z.of_nat d + Z.of_nat sidx in
  get (nth d byte_operands A) (exec op s) =
    wrap 8 (get (nth sidx byte_operands A) s) /\
  PC (exec op s) = PC s.
Proof.
  intros Hd Hs Hne. cbv zeta.
  below8 d Hd; below8 sidx Hs; try (exfalso; apply Hne; split; reflexivity);
    clear Hne; literal_opcode;
    cbv beta iota delta [exec nth byte_operands];
    (split; [|reflexivity]);
    first [ reflexivity
          | cbn [get set atHL]; unfold store; cbn [ram with_ram];
            rewrite Z.eqb_refl; reflexivity ].
Qed.

Lemma mov_dispatch_witness :
  let op := 0x40 + 8 * Z.of_nat 6 + Z.of_nat 4 in
  let s := set HL 0x2000 power_on in
  get (nth 6 byte_operands A) (exec op s) =
    wrap 8 (get (nth 4 byte_operands A) s) /\
  PC (exec op s) = PC s.
Proof.
  cbv zeta. apply (mov_dispatch 6 4 (set HL 0x2000 power_on)).
  - lia.
  - lia.
  - intros [_ H4]. discriminate H4.
Defined.

(** X25.  The arithmetic and logic group, and INR, DCR, MVI: the register field of
    the opcode selects the operand in the same order for every row of the
    table. *)
Theorem alu_dispatch k s :
  (k < 8)%nat ->
  let r := nth k byte_operands A in
  let z := Z.of_nat k in
  exec (0x80 + z) s = add (get r s) false s /\
  exec (0x88 + z) s = add (get r s) true s /\
  exec (0x90 + z) s = sub (get r s) false s /\
  exec (0x98 + z) s = sub (get r s) true s /\
  exec (0xa0 + z) s = logicAnd (get r s) s /\
  exec (0xa8 + z) s = logicXor (get r s) s /\
  exec (0xb0 + z) s = logicOr (get r s) s /\
  exec (0xb8 + z) s = cmp (get r s) s /\
  exec (0x04 + 8 * z) s = inr r s /\
  exec (0x05 + 8 * z) s = dcr r s /\
  exec (0x06 + 8 * z) s = set r (ram s (PC s)) (set refPC (PC s + 1) s).
Proof.
  intros Hk. cbv zeta.
  below8 k Hk; literal_opcode;
    cbv beta iota delta [exec nth byte_operands get8];
    repeat (apply conj); reflexivity.
Qed.

Lemma alu_dispatch_witness :
  let s := power_on in
  let r := nth 6 byte_operands A in
  let z := Z.of_nat 6 in
  exec (0x80 + z) s = add (get r s) false s /\
  exec (0x88 + z) s = add (get r s) true s /\
  exec (0x90 + z) s = sub (get r s) false s /\
  exec (0x98 + z) s = sub (get r s) true s /\
  exec (0xa0 + z) s = logicAnd (get r s) s /\
  exec (0xa8 + z) s = logicXor (get r s) s /\
  exec (0xb0 + z) s = logicOr (get r s) s /\
  exec (0xb8 + z) s = cmp (get r s) s /\
  exec (0x04 + 8 * z) s = inr r s /\
  exec (0x05 + 8 * z) s = dcr r s /\
  exec (0x06 + 8 * z) s = set r (ram s (PC s)) (set refPC (PC s + 1) s).
Proof. cbv zeta. apply (alu_dispatch 6 power_on). lia. Defined.

(** ** Pairs on the stack and in [SP], [PC] *)

Lemma full_halves r :
  reg_ok r ->
  0 <= full r < 65536 /\ full r / 256 = pair1 r /\ full r mod 256 = pair0 r.
Proof.
  destruct r as [p0 p1]. unfold reg_ok, is_byte, full. cbn [pair0 pair1].
  intros [H0 H1]. repeat (apply conj); Z.to_euclidean_division_equations; lia.
Qed.

(** X17.  PUSH B, D, H, PSW: [SP] goes down by 2; the register named second (C,
    E, L, F) is stored at the new [SP] and the register named first (B, D,
    H, A) above it. *)
Theorem push_opcode_bytes op r1 r2 s :
  In (op, r1, r2) push_opcodes -> wf s ->
  SP (exec op s) = (SP s - 2) mod 65536 /\
  ram (exec op s) (SP (exec op s)) = get r2 s /\
  ram (exec op s) (SP (exec op s) + 1) = get r1 s.
Proof.
  intros Hin [_ _ _ HPSW HBC HDE HHL _].
  unfold push_opcodes in Hin. simpl in Hin.
  destruct Hin as [Hin | [Hin | [Hin | [Hin | []]]]];
    injection Hin as <- <- <-; cbv beta iota delta [exec].
  - destruct (full_halves (_BC s) HBC) as (Hw & Hhi & Hlo).
    destruct (push_layout (get BC s) s Hw) as (E1 & E2 & E3).
    rewrite E1 in *. rewrite E2, E3. repeat (apply conj); auto.
  - destruct (full_halves (_DE s) HDE) as (Hw & Hhi & Hlo).
    destruct (push_layout (get DE s) s Hw) as (E1 & E2 & E3).
    rewrite E1 in *. rewrite E2, E3. repeat (apply conj); auto.
  - destruct (full_halves (_HL s) HHL) as (Hw & Hhi & Hlo).
    destruct (push_layout (get HL s) s Hw) as (E1 & E2 & E3).
    rewrite E1 in *. rewrite E2, E3. repeat (apply conj); auto.
  - destruct (full_halves (_PSW s) HPSW) as (Hw & Hhi & Hlo).
    destruct (push_layout (get PSW s) s Hw) as (E1 & E2 & E3).
    rewrite E1 in *. rewrite E2, E3. repeat (apply conj); auto.
Qed.

Lemma push_opcode_bytes_witness :
  let s := set HL 0xBEEF (set refSP 0x1000 power_on) in
  SP (exec 0xe5 s) = (SP s - 2) mod 65536 /\
  ram (exec 0xe5 s) (SP (exec 0xe5 s)) = get L s /\
  ram (exec 0xe5 s) (SP (exec 0xe5 s) + 1) = get H s.
Proof.
  cbv zeta.
  apply (push_opcode_bytes 0xe5 H L (set HL 0xBEEF (set refSP 0x1000 power_on))).
  - right. right. left. reflexivity.
  - constructor; cbn; unfold is_word, is_byte, reg_ok, is_byte; cbn;
      try intros a; lia.
Defined.

(** X20.  SPHL and PCHL: [SP], respectively [PC], receives [256 * H + L]. *)
Theorem sphl_pchl_effect s :
  reg_ok (_HL s) ->
  SP (exec 0xf9 s) = 256 * get H s + get L s /\
  PC (exec 0xe9 s) = 256 * get H s + get L s.
Proof.
  intros HHL. destruct (full_halves (_HL s) HHL) as (Hw & Hhi & Hlo).
  cbv beta iota delta [exec].
  change (SP (set refSP (swapBytes (get HL s)) s))
    with (wrap 16 (swapBytes (full (_HL s)))).
  change (PC (set refPC (swapBytes (get HL s)) s))
    with (wrap 16 (swapBytes (full (_HL s)))).
  change (get H s) with (pair0 (_HL s)). change (get L s) with (pair1 (_HL s)).
  rewrite (swapBytes_eq _ Hw), Hhi, Hlo.
  destruct HHL as [H0 H1]. unfold is_byte in *. unfold wrap.
  change (2 ^ 16) with 65536.
  split; rewrite Z.mod_small; lia.
Qed.

Lemma sphl_pchl_effect_witness :
  let s := set L 0x34 (set H 0x12 power_on) in
  SP (exec 0xf9 s) = 256 * get H s + get L s /\
  PC (exec 0xe9 s) = 256 * get H s + get L s.
Proof.
  cbv zeta. apply (sphl_pchl_effect (set L 0x34 (set H 0x12 power_on))).
  vm_compute. repeat split; discriminate.
Defined.

(** X21.  LXI B, D, H: the register named first (B, D, H) receives the first
    operand byte and the register named second the second one; [PC] moves
    past both.  LXI SP receives the operand as a little-endian word. *)
Theorem lxi_effect op r1 r2 s :
  In (op, r1, r2) lxi_opcodes ->
  0 <= ram s (PC s) < 256 -> 0 <= ram s (PC s + 1) < 256 ->
  get r1 (exec op s) = ram s (PC s) /\
  get r2 (exec op s) = ram s (PC s + 1) /\
  PC (exec op s) = (PC s + 2) mod 65536 /\
  SP (exec 0x31 s) = ram s (PC s) + 256 * ram s (PC s + 1).
Proof.
  intros Hin Hb0 Hb1.
  assert (Hw : 0 <= deref16 (ram s) (PC s) < 65536) by (unfold deref16; lia).
  destruct (halves_of_full _ Hw) as (H0 & H1 & _).
  assert (Hlo : deref16 (ram s) (PC s) mod 256 = ram s (PC s))
    by (unfold deref16; Z.to_euclidean_division_equations; lia).
  assert (Hhi : deref16 (ram s) (PC s) / 256 = ram s (PC s + 1))
    by (unfold deref16; Z.to_euclidean_division_equations; lia).
  assert (HSP : SP (exec 0x31 s) = ram s (PC s) + 256 * ram s (PC s + 1)).
  { cbv beta iota zeta delta [exec get16].
    change (SP (set refSP (deref16 (ram s) (PC s)) (set refPC (PC s + 2) s)))
      with (wrap 16 (deref16 (ram s) (PC s))).
    unfold wrap. rewrite Z.mod_small by exact Hw. unfold deref16. lia. }
  unfold lxi_opcodes in Hin. simpl in Hin.
  destruct Hin as [Hin | [Hin | [Hin | []]]];
    injection Hin as <- <- <-; cbv beta iota zeta delta [exec get16];
    (split; [rewrite <- Hlo; exact H0|]);
    (split; [rewrite <- Hhi; exact H1|]);
    (split; [reflexivity | exact HSP]).
Qed.

Lemma lxi_effect_witness :
  let s := load 0 [0x34; 0x12] power_on in
  get B (exec 0x01 s) = ram s (PC s) /\
  get C (exec 0x01 s) = ram s (PC s + 1) /\
  PC (exec 0x01 s) = (PC s + 2) mod 65536 /\
  SP (exec 0x31 s) = ram s (PC s) + 256 * ram s (PC s + 1).
Proof.
  cbv zeta. apply (lxi_effect 0x01 B C (load 0 [0x34; 0x12] power_on)).
  - left. reflexivity.
  - vm_compute. split; [discriminate | reflexivity].
  - vm_compute. split; [discriminate | reflexivity].
Defined.

Lemma load_effect_witness :
  (forall k, (k < length [0x01; 0x34; 0x12])%nat ->
     ram (load 0 [0x01; 0x34; 0x12] power_on) (0 + Z.of_nat k) =
     wrap 8 (nth k [0x01; 0x34; 0x12] 0)) /\
  (forall a, a < 0 \/ 0 + Z.of_nat (length [0x01; 0x34; 0x12]) <= a ->
     ram (load 0 [0x01; 0x34; 0x12] power_on) a = ram power_on a) /\
  (_PSW (load 0 [0x01; 0x34; 0x12] power_on),
   _BC (load 0 [0x01; 0x34; 0x12] power_on),
   _DE (load 0 [0x01; 0x34; 0x12] power_on),
   _HL (load 0 [0x01; 0x34; 0x12] power_on),
   SP (load 0 [0x01; 0x34; 0x12] power_on),
   PC (load 0 [0x01; 0x34; 0x12] power_on))
  = (_PSW power_on, _BC power_on, _DE power_on, _HL power_on, SP power_on,
     PC power_on).
Proof. apply (load_effect 0 [0x01; 0x34; 0x12] power_on). Defined.
